(** * GPU monitoring agent (linux/main.py): a shallow embedding

    The agent probes [nvidia-smi] every [FREQUENCY] seconds, turns its CSV
    output into a dictionary of per-device samples and submits one batch of
    time series to Cloud Monitoring.  This file embeds [get_instance_params],
    [report_metrics], [get_metrics], [check_nvidia_smi] and [main] together
    with the Python built-ins they call, and states the properties of the
    design document against that embedding.

    Conventions.
    - A Python [float] is a primitive binary64 float; [str] is [string]
      (the tool prints ASCII, so [bytes.decode] is the identity).
    - A [dict] is an association list in insertion order.
    - An exception is a value of [exn]; a computation yields an [outcome].
    - The outside world (the tool, the metadata server, the monitoring
      backend, the clock) is an explicit argument; what the program does to
      it is a list of [event]s. *)

From Stdlib Require Import ZArith List String Ascii Bool Lia DecimalString.
From Stdlib Require Import Floats.
Import ListNotations.

Local Open Scope string_scope.
Local Open Scope list_scope.
Local Open Scope Z_scope.

(** ** Exceptions and outcomes *)

Inductive exn : Type :=
| FileNotFoundError
| PermissionError
| OSError (errno : Z) (strerror : string)
| CalledProcessError (returncode : Z) (stdout stderr : string)
| TimeoutExpired
| ConnectionError (msg : string)
| IndexError
| KeyError (key : string)
| ValueError (msg : string)
| ZeroDivisionError
| OverflowError
| ApiError (msg : string)
| KeyboardInterrupt
| SystemExit (code : Z).

(** [isinstance(e, Exception)]: only [KeyboardInterrupt] and [SystemExit]
    derive from [BaseException] directly. *)
Definition is_Exception (e : exn) : bool :=
  match e with
  | KeyboardInterrupt | SystemExit _ => false
  | _ => true
  end.

(** [isinstance(e, requests.exceptions.ConnectionError)]. *)
Definition is_ConnectionError (e : exn) : bool :=
  match e with
  | ConnectionError _ => true
  | _ => false
  end.

(** [str(e)], as [print(err)] shows it. *)
Definition str_exn (e : exn) : string :=
  match e with
  | ConnectionError msg | ValueError msg | ApiError msg => msg
  | KeyError key => ("'" ++ key ++ "'")%string
  | ZeroDivisionError => "float division by zero"
  | OverflowError => "cannot convert float infinity to integer"
  | IndexError => "list index out of range"
  | FileNotFoundError => "[Errno 2] No such file or directory"
  | PermissionError => "[Errno 13] Permission denied"
  | OSError _ strerror => strerror
  | CalledProcessError _ _ _ => "Command returned non-zero exit status"
  | TimeoutExpired => "Command timed out"
  | KeyboardInterrupt => ""
  | SystemExit _ => ""
  end.

(** A computation returns, raises, or waits for ever on an external call. *)
Inductive outcome (A : Type) : Type :=
| Return (a : A)
| Raise (e : exn)
| Blocked.

Arguments Return {A} a.
Arguments Raise {A} e.
Arguments Blocked {A}.

Definition obind {A B} (m : outcome A) (f : A -> outcome B) : outcome B :=
  match m with
  | Return a => f a
  | Raise e => Raise e
  | Blocked => Blocked
  end.

Declare Scope py_scope.
Delimit Scope py_scope with py.
Notation "x <- m ;; k" := (obind m (fun x => k))
  (at level 61, m at next level, right associativity) : py_scope.
Local Open Scope py_scope.

(** ** Strings *)

Definition is_digit (c : ascii) : bool :=
  let n := N_of_ascii c in ((48 <=? n) && (n <=? 57))%N.

Definition digit_val (c : ascii) : Z := Z.of_N (N_of_ascii c) - 48.

(** [Py_ISSPACE]: the blanks [float] strips from an ASCII string. *)
Definition is_space (c : ascii) : bool :=
  let n := N_of_ascii c in
  (((9 <=? n) && (n <=? 13)) || (n =? 32))%N.

(** [str.split(sep)] for a one-character separator: never empty. *)
Fixpoint split (sep : ascii) (s : string) : list string :=
  match s with
  | EmptyString => [EmptyString]
  | String c s' =>
      if Ascii.eqb c sep then EmptyString :: split sep s'
      else match split sep s' with
           | [] => [String c EmptyString]
           | w :: ws => String c w :: ws
           end
  end.

(** Line boundaries of [str.splitlines]: LF, VT, FF, CR, FS, GS, RS. *)
Definition is_linebreak (c : ascii) : bool :=
  let n := N_of_ascii c in
  (((10 <=? n) && (n <=? 13)) || ((28 <=? n) && (n <=? 30)))%N.

(** [str.splitlines()]: CR LF counts once, and no empty last line. *)
Fixpoint splitlines (s : string) : list string :=
  match s with
  | EmptyString => []
  | String c s' =>
      if is_linebreak c then
        match c, s' with
        | "013"%char, String "010"%char s'' => EmptyString :: splitlines s''
        | _, _ => EmptyString :: splitlines s'
        end
      else match splitlines s' with
           | [] => [String c EmptyString]
           | w :: ws => String c w :: ws
           end
  end.

(** [",".join(l)]. *)
Definition join (sep : string) (l : list string) : string := String.concat sep l.

(** [sorted(l)] on strings: insertion sort by code points, stable. *)
Fixpoint insert_sorted (x : string) (l : list string) : list string :=
  match l with
  | [] => [x]
  | y :: l' => if String.ltb x y then x :: l else y :: insert_sorted x l'
  end.

Definition sorted (l : list string) : list string :=
  fold_left (fun acc x => insert_sorted x acc) (rev l) [].

(** ** Numbers *)

(** [float(n)] for an [int] and [int * float] coercions: correctly rounded. *)
Definition float_of_int (z : Z) : float :=
  SF2Prim (binary_normalize prec emax z 0 false).

(** Nearest integer to [num / den] (both positive), ties to even. *)
Definition round_half_even (num den : Z) : Z :=
  let q := num / den in
  let r := num mod den in
  if 2 * r <? den then q
  else if den <? 2 * r then q + 1
  else if Z.even q then q else q + 1.

(** [round(x)] with one argument: an [int], ties to even. *)
Definition py_round (x : float) : outcome Z :=
  match Prim2SF x with
  | S754_nan => Raise (ValueError "cannot convert float NaN to integer")
  | S754_infinity _ => Raise OverflowError
  | S754_zero _ => Return 0
  | S754_finite s m e =>
      let n := if 0 <=? e then Zpos m * 2 ^ e
               else round_half_even (Zpos m) (2 ^ (- e)) in
      Return (if s then - n else n)
  end.

(** [int(x)]: truncation towards zero. *)
Definition py_int (x : float) : outcome Z :=
  match Prim2SF x with
  | S754_nan => Raise (ValueError "cannot convert float NaN to integer")
  | S754_infinity _ => Raise OverflowError
  | S754_zero _ => Return 0
  | S754_finite s m e =>
      let n := if 0 <=? e then Zpos m * 2 ^ e else Zpos m / 2 ^ (- e) in
      Return (if s then - n else n)
  end.

(** [a / b] on floats: only a zero divisor raises. *)
Definition truediv (a b : float) : outcome float :=
  if PrimFloat.eqb b 0%float then Raise ZeroDivisionError
  else Return (a / b)%float.

(** *** [float(s)] on a string *)

Fixpoint lstrip (l : list ascii) : list ascii :=
  match l with
  | c :: l' => if is_space c then lstrip l' else l
  | [] => []
  end.

Definition strip (l : list ascii) : list ascii := rev (lstrip (rev (lstrip l))).

(** PEP 515: an underscore stands between two digits, or the string is
    refused.  [prev] is the character before, NUL at the start. *)
Fixpoint drop_underscores (prev : ascii) (l : list ascii) : option (list ascii) :=
  match l with
  | [] => if Ascii.eqb prev "_" then None else Some []
  | c :: l' =>
      if Ascii.eqb c "_" then
        if is_digit prev then drop_underscores c l' else None
      else if Ascii.eqb prev "_" && negb (is_digit c) then None
      else option_map (cons c) (drop_underscores c l')
  end.

Definition lower (c : ascii) : ascii :=
  let n := N_of_ascii c in
  if ((65 <=? n) && (n <=? 90))%N then ascii_of_N (n + 32) else c.

Definition take_sign (l : list ascii) : bool * list ascii :=
  match l with
  | "-"%char :: r => (true, r)
  | "+"%char :: r => (false, r)
  | _ => (false, l)
  end.

(** Reads a run of digits: the number read so far, how many digits, the rest. *)
Fixpoint take_digits (l : list ascii) (acc n : Z) : Z * Z * list ascii :=
  match l with
  | c :: l' =>
      if is_digit c then take_digits l' (10 * acc + digit_val c) (n + 1)
      else (acc, n, l)
  | [] => (acc, n, [])
  end.

(** [sign? (digits+ ("." digits* )? | "." digits+) ([eE] sign? digits+)?],
    the whole string: the sign, the digits as one integer and the power of
    ten it is scaled by. *)
Definition parse_decimal (l : list ascii) : option (bool * Z * Z) :=
  let '(neg, l1) := take_sign l in
  let '(m1, n1, l2) := take_digits l1 0 0 in
  let '(m2, n2, l3) :=
    match l2 with
    | "."%char :: r => take_digits r m1 0
    | _ => (m1, 0, l2)
    end in
  if n1 + n2 =? 0 then None
  else
    let '(e, l4) :=
      match l3 with
      | c :: r =>
          if Ascii.eqb (lower c) "e" then
            let '(eneg, r1) := take_sign r in
            let '(ev, en, r2) := take_digits r1 0 0 in
            if en =? 0 then (0, l3) else ((if eneg then - ev else ev), r2)
          else (0, l3)
      | [] => (0, l3)
      end in
    match l4 with
    | [] => Some (neg, m2, e - n2)
    | _ :: _ => None
    end.

(** [sign? (inf | infinity | nan)], in any case. *)
Definition parse_inf_or_nan (l : list ascii) : option float :=
  let '(neg, l1) := take_sign l in
  let w := string_of_list_ascii (map lower l1) in
  if (w =? "inf")%string || (w =? "infinity")%string
  then Some (if neg then neg_infinity else infinity)
  else if (w =? "nan")%string then Some nan
  else None.

(** The binary64 nearest to [m * 10 ^ e] ([0 <= m]), ties to even.  Below
    one, the quotient is taken with 57 extra bits and a sticky last bit. *)
Definition decimal_to_float (m e : Z) : float :=
  if m =? 0 then 0%float
  else if 0 <=? e then SF2Prim (binary_normalize prec emax (m * 10 ^ e) 0 false)
  else
    let d := 10 ^ (- e) in
    let s := Z.log2 d + 57 in
    let q := (m * 2 ^ s) / d in
    let r := (m * 2 ^ s) mod d in
    SF2Prim (binary_normalize prec emax
               (2 * q + (if r =? 0 then 0 else 1)) (- s - 1) false).

Definition has_underscore (l : list ascii) : bool :=
  existsb (fun c => Ascii.eqb c "_") l.

(** *** [repr(s)] of an ASCII string *)

Definition backslash : ascii := ascii_of_N 92.
Definition apostrophe : ascii := ascii_of_N 39.
Definition double_quote : ascii := ascii_of_N 34.

Definition hex_digit (n : N) : ascii :=
  if (n <? 10)%N then ascii_of_N (48 + n) else ascii_of_N (87 + n).

(** One character inside the quotes [quote]. *)
Definition repr_char (quote c : ascii) : string :=
  let n := N_of_ascii c in
  if Ascii.eqb c backslash || Ascii.eqb c quote
  then String backslash (String c EmptyString)
  else if (n =? 9)%N then String backslash "t"
  else if (n =? 10)%N then String backslash "n"
  else if (n =? 13)%N then String backslash "r"
  else if ((n <? 32) || (n =? 127))%N
  then String backslash
         (String "x" (String (hex_digit (n / 16)) (String (hex_digit (n mod 16))
            EmptyString)))
  else String c EmptyString.

Fixpoint repr_body (quote : ascii) (s : string) : string :=
  match s with
  | EmptyString => EmptyString
  | String c s' => (repr_char quote c ++ repr_body quote s')%string
  end.

Fixpoint contains (c : ascii) (s : string) : bool :=
  match s with
  | EmptyString => false
  | String c' s' => Ascii.eqb c' c || contains c s'
  end.

(** Apostrophes around the string, unless it holds an apostrophe and no
    double quote. *)
Definition py_repr (s : string) : string :=
  let quote :=
    if contains apostrophe s && negb (contains double_quote s)
    then double_quote else apostrophe in
  String quote (repr_body quote s ++ String quote EmptyString).

(** [str(n)] of an [int]. *)
Definition str_int (n : Z) : string := NilZero.string_of_int (Z.to_int n).

Definition py_float (s : string) : outcome float :=
  let bad := Raise (ValueError ("could not convert string to float: " ++ py_repr s)%string) in
  let l := list_ascii_of_string s in
  match (if has_underscore l then drop_underscores "000" l else Some l) with
  | None => bad
  | Some l1 =>
      let l2 := strip l1 in
      match parse_decimal l2 with
      | Some (neg, m, e) =>
          let x := decimal_to_float m e in
          Return (if neg then (- x)%float else x)
      | None =>
          match parse_inf_or_nan l2 with
          | Some x => Return x
          | None => bad
          end
      end
  end.

(** ** Lists, tuples and dictionaries *)

(** [l[n]] for a non-negative index. *)
Definition getindex {A} (l : list A) (n : nat) : outcome A :=
  match nth_error l n with
  | Some x => Return x
  | None => Raise IndexError
  end.

Section Dict.
Context {K V : Type} (eqb : K -> K -> bool).

Definition dict := list (K * V).

Fixpoint dict_get (d : dict) (k : K) : option V :=
  match d with
  | [] => None
  | (k', v) :: d' => if eqb k' k then Some v else dict_get d' k
  end.

(** [d[k] = v]: a key that is present keeps its place. *)
Fixpoint dict_set (d : dict) (k : K) (v : V) : dict :=
  match d with
  | [] => [(k, v)]
  | (k', v') :: d' =>
      if eqb k' k then (k', v) :: d' else (k', v') :: dict_set d' k v
  end.

Definition keys (d : dict) : list K := map fst d.
End Dict.

Fixpoint tuple_eqb (a b : list string) : bool :=
  match a, b with
  | [], [] => true
  | x :: a', y :: b' => (x =? y)%string && tuple_eqb a' b'
  | _, _ => false
  end.

(** [d[k]] on a plain [dict] of floats. *)
Definition getitem (d : dict (K := string) (V := float)) (k : string) : outcome float :=
  match dict_get String.eqb d k with
  | Some v => Return v
  | None => Raise (KeyError k)
  end.

(** ** Module constants *)

Definition METADATA_URL : string :=
  "http://metadata.google.internal/computeMetadata/v1/instance/".

Definition METADATA_HEADERS : list (string * string) :=
  [("Metadata-Flavor", "Google")].

(** How many seconds pass between two reports. *)
Definition FREQUENCY : Z := 10.

Definition NVIDIA_SMI_BIN : string := "nvidia-smi".

Definition METRICS : list (string * string) :=
  [ ("utilization.gpu", "instance/gpu/utilization");
    ("utilization.memory", "instance/gpu/memory_utilization");
    ("memory.total", "instance/gpu/memory_total");
    ("memory.used", "instance/gpu/memory_used");
    ("memory.free", "instance/gpu/memory_free");
    ("temperature.gpu", "instance/gpu/temperature") ].

Definition MEM_USED_PERCENT : string := "instance/gpu/memory_used_percent".

(** [(gpu_type, gpu_bus_id)] to the metrics of that GPU.  The key is
    [tuple(line[:2])], so it can be shorter than a pair. *)
Definition MetricsData : Type := list (list string * list (string * float)).

(** ** The monitoring API's messages *)

Record Point : Type := {
  end_time_seconds : Z;
  end_time_nanos : Z;
  double_value : float
}.

Record TimeSeries : Type := {
  resource_type : string;
  resource_labels : list (string * string);
  metric_type : string;
  metric_labels : list (string * string);
  points : list Point
}.

Definition set_resource_label (k v : string) (ts : TimeSeries) : TimeSeries :=
  {| resource_type := resource_type ts;
     resource_labels := dict_set String.eqb (resource_labels ts) k v;
     metric_type := metric_type ts;
     metric_labels := metric_labels ts;
     points := points ts |}.

Definition set_metric_label (k v : string) (ts : TimeSeries) : TimeSeries :=
  {| resource_type := resource_type ts;
     resource_labels := resource_labels ts;
     metric_type := metric_type ts;
     metric_labels := dict_set String.eqb (metric_labels ts) k v;
     points := points ts |}.

Definition set_metric_type (t : string) (ts : TimeSeries) : TimeSeries :=
  {| resource_type := resource_type ts;
     resource_labels := resource_labels ts;
     metric_type := t;
     metric_labels := metric_labels ts;
     points := points ts |}.

(** [ts.points[0].value.double_value = v]. *)
Definition set_double_value (v : float) (ts : TimeSeries) : outcome TimeSeries :=
  match points ts with
  | [] => Raise IndexError
  | p :: ps =>
      Return {| resource_type := resource_type ts;
                resource_labels := resource_labels ts;
                metric_type := metric_type ts;
                metric_labels := metric_labels ts;
                points := {| end_time_seconds := end_time_seconds p;
                             end_time_nanos := end_time_nanos p;
                             double_value := v |} :: ps |}
  end.

(** ** The outside world and what the agent does to it *)

(** One run of the [nvidia-smi] binary: it cannot be started ([NotFound],
    [NotExecutable], or [StartFails] with another [errno]), it exits, or it
    never does. *)
Inductive tool_behaviour : Type :=
| NotFound
| NotExecutable
| StartFails (errno : Z) (strerror : string)
| Exits (elapsed : Z) (returncode : Z) (stdout stderr : string)
| NeverExits.

(** One request to the metadata server. *)
Inductive http_behaviour : Type :=
| Unreachable (msg : string)
| Responds (text : string).

Inductive event : Type :=
| Run (argv : list string)
| Get (url : string) (headers : list (string * string))
| Print (line : string)
| CreateTimeSeries (name : string) (time_series : list TimeSeries)
| Sleep (seconds : Z).

(** What one cycle of the loop meets: the tool, the clock, and whether the
    backend accepts the batch ([None]) or raises. *)
Record cycle_world : Type := {
  smi_query : tool_behaviour;
  clock : float;
  backend : option exn
}.

Record world : Type := {
  smi_list : tool_behaviour;
  metadata : string -> http_behaviour;
  cycles : list cycle_world
}.

(** An effectful computation: the events so far and how it ended. *)
Definition io (A : Type) : Type := list event * outcome A.

Definition ret {A} (a : A) : io A := ([], Return a).

Definition lift {A} (m : outcome A) : io A := ([], m).

Definition iobind {A B} (m : io A) (f : A -> io B) : io B :=
  match m with
  | (t, Return a) => let '(t', r) := f a in (t ++ t', r)
  | (t, Raise e) => (t, Raise e)
  | (t, Blocked) => (t, Blocked)
  end.

Notation "x <<- m ;; k" := (iobind m (fun x => k))
  (at level 61, m at next level, right associativity) : py_scope.

(** [try: body  except <catches> as err: handler(err)]. *)
Definition try_except {A} (body : io A) (catches : exn -> bool)
    (handler : exn -> io A) : io A :=
  match body with
  | (t, Raise e) =>
      if catches e then let '(t', r) := handler e in (t ++ t', r)
      else (t, Raise e)
  | r => r
  end.

(** [print(line, file=sys.stderr)]. *)
Definition print (line : string) : io unit := ([Print line], Return tt).

Definition sys_exit {A} (code : Z) : io A := ([], Raise (SystemExit code)).

Definition sleep (seconds : Z) : io unit := ([Sleep seconds], Return tt).

Record CompletedProcess : Type := {
  proc_returncode : Z;
  proc_stdout : string;
  proc_stderr : string
}.

(** [subprocess.run(argv, check=check, timeout=timeout, stdout=PIPE,
    stderr=PIPE)].  Starting the child fails with [FileNotFoundError] when
    the binary is not in [$PATH], with [PermissionError] when it cannot be
    executed, and with another [OSError] otherwise.  Without a timeout the
    call waits until the child exits. *)
Definition subprocess_run (argv : list string) (check : bool)
    (timeout : option Z) (b : tool_behaviour) : io CompletedProcess :=
  ([Run argv],
   match b with
   | NotFound => Raise FileNotFoundError
   | NotExecutable => Raise PermissionError
   | StartFails errno strerror => Raise (OSError errno strerror)
   | NeverExits =>
       match timeout with
       | None => Blocked
       | Some _ => Raise TimeoutExpired
       end
   | Exits elapsed rc out err =>
       if match timeout with Some t => t <? elapsed | None => false end
       then Raise TimeoutExpired
       else if check && negb (rc =? 0) then Raise (CalledProcessError rc out err)
       else Return {| proc_returncode := rc; proc_stdout := out; proc_stderr := err |}
   end).

(** [requests.get(url, headers=headers).text]. *)
Definition requests_get_text (server : string -> http_behaviour)
    (url : string) (headers : list (string * string)) : io string :=
  ([Get url headers],
   match server url with
   | Unreachable msg => Raise (ConnectionError msg)
   | Responds text => Return text
   end).

(** ** The program *)

(** [get_instance_params()]: both indexings of the zone path come before
    the second request. *)
Definition get_instance_params (server : string -> http_behaviour)
    : io (string * string * string) :=
  data <<- requests_get_text server (METADATA_URL ++ "zone")%string
            METADATA_HEADERS ;;
  zone <<- lift (getindex (split "/" data) 3) ;;
  project_id <<- lift (getindex (split "/" data) 1) ;;
  instance_id <<- requests_get_text server (METADATA_URL ++ "id")%string
                   METADATA_HEADERS ;;
  ret (project_id, zone, instance_id).

(** The fields of a [Timestamp]: [seconds] is an int64, [nanos] an int32. *)
Definition in_int64 (n : Z) : bool := (- 2 ^ 63 <=? n) && (n <? 2 ^ 63).
Definition in_int32 (n : Z) : bool := (- 2 ^ 31 <=? n) && (n <? 2 ^ 31).

(** [{"seconds": seconds, "nanos": nanos}] as a [Timestamp]. *)
Definition timestamp (seconds nanos : Z) : outcome (Z * Z) :=
  if negb (in_int64 seconds)
  then Raise (ValueError ("Value out of range: " ++ str_int seconds)%string)
  else if negb (in_int32 nanos)
  then Raise (ValueError ("Value out of range: " ++ str_int nanos)%string)
  else Return (seconds, nanos).

(** The template every series is a deep copy of (lines 96-109). *)
Definition time_series_template (now : float) (zone instance_id project_id : string)
    : outcome TimeSeries :=
  let time_series :=
    {| resource_type := "gce_instance"; resource_labels := [];
       metric_type := ""; metric_labels := []; points := [] |} in
  let time_series := set_resource_label "instance_id" instance_id time_series in
  let time_series := set_resource_label "zone" zone time_series in
  let time_series := set_resource_label "project_id" project_id time_series in
  seconds <- py_int now ;;
  nanos <- py_int ((now - float_of_int seconds) * float_of_int (10 ^ 9))%float ;;
  end_time <- timestamp seconds nanos ;;
  let point := {| end_time_seconds := fst end_time;
                  end_time_nanos := snd end_time;
                  double_value := 0%float |} in
  Return {| resource_type := resource_type time_series;
            resource_labels := resource_labels time_series;
            metric_type := metric_type time_series;
            metric_labels := metric_labels time_series;
            points := [point] |}.

(** [itertools.chain(METRICS.items(), (('', MEM_USED_PERCENT),))]. *)
Definition metric_pairs : list (string * string) :=
  METRICS ++ [("", MEM_USED_PERCENT)].

(** The value of one series (lines 117-121). *)
Definition series_value (metrics : list (string * float))
    (smi_metric gcp_metric : string) : outcome float :=
  if (gcp_metric =? MEM_USED_PERCENT)%string then
    used <- getitem metrics "memory.used" ;;
    total <- getitem metrics "memory.total" ;;
    ratio <- truediv used total ;;
    percent <- py_round (ratio * float_of_int 100)%float ;;
    Return (float_of_int percent)
  else getitem metrics smi_metric.

(** The inner loop (lines 115-125), [series] being the list appended to. *)
Fixpoint device_loop (time_series : TimeSeries) (gpu_type gpu_bus_id : string)
    (metrics : list (string * float)) (pairs : list (string * string))
    (series : list TimeSeries) : outcome (list TimeSeries) :=
  match pairs with
  | [] => Return series
  | (smi_metric, gcp_metric) :: rest =>
      value <- series_value metrics smi_metric gcp_metric ;;
      new_series <- set_double_value value time_series ;;
      let new_series :=
        set_metric_type ("custom.googleapis.com/" ++ gcp_metric)%string new_series in
      let new_series := set_metric_label "gpu_type" gpu_type new_series in
      let new_series := set_metric_label "gpu_bus_id" gpu_bus_id new_series in
      device_loop time_series gpu_type gpu_bus_id metrics rest (series ++ [new_series])
  end.

(** What unpacking [(gpu_type, gpu_bus_id)] raises on a key that is not a
    pair. *)
Definition unpack_error (key : list string) : exn :=
  match key with
  | [] => ValueError "not enough values to unpack (expected 2, got 0)"
  | [_] => ValueError "not enough values to unpack (expected 2, got 1)"
  | _ => ValueError "too many values to unpack (expected 2)"
  end.

(** The outer loop (line 114); the key is unpacked into two names. *)
Fixpoint values_loop (time_series : TimeSeries) (items : MetricsData)
    (series : list TimeSeries) : outcome (list TimeSeries) :=
  match items with
  | [] => Return series
  | (key, metrics) :: rest =>
      match key with
      | [gpu_type; gpu_bus_id] =>
          series' <- device_loop time_series gpu_type gpu_bus_id metrics
                       metric_pairs series ;;
          values_loop time_series rest series'
      | _ => Raise (unpack_error key)
      end
  end.

(** Lines 96-125: everything before the submission. *)
Definition build_series (now : float) (values : MetricsData)
    (project_id zone instance_id : string) : outcome (list TimeSeries) :=
  time_series <- time_series_template now zone instance_id project_id ;;
  values_loop time_series values [].

(** [METRIC_CLIENT.create_time_series(name=..., time_series=...)]. *)
Definition create_time_series (reply : option exn) (name : string)
    (series : list TimeSeries) : io unit :=
  ([CreateTimeSeries name series],
   match reply with
   | None => Return tt
   | Some e => Raise e
   end).

Definition report_metrics (now : float) (reply : option exn)
    (values : MetricsData) (project_id zone instance_id : string) : io unit :=
  let project_name := ("projects/" ++ project_id)%string in
  series <<- lift (build_series now values project_id zone instance_id) ;;
  try_except (create_time_series reply project_name series) is_Exception
    (fun err =>
       _ <<- print "Encountered an error:" ;;
       print (str_exn err)).

(** The dictionary comprehension of lines 155-156: [zip] stops at the
    shorter side, and [float] runs on a field only when a key is left. *)
Fixpoint zip_floats (ks : list string) (fields : list string)
    (d : list (string * float)) : outcome (list (string * float)) :=
  match ks, fields with
  | k :: ks', f :: fields' =>
      v <- py_float f ;;
      zip_floats ks' fields' (dict_set String.eqb d k v)
  | _, _ => Return d
  end.

(** The loop over the output lines (lines 153-156). *)
Fixpoint lines_loop (lines : list string) (data : MetricsData)
    : outcome MetricsData :=
  match lines with
  | [] => Return data
  | line :: rest =>
      let line := split "," line in
      d <- zip_floats (sorted (keys METRICS)) (skipn 2 line) [] ;;
      lines_loop rest (dict_set tuple_eqb data (firstn 2 line) d)
  end.

Definition query_argv : list string :=
  let metrics := ["gpu_name"; "gpu_bus_id"] ++ sorted (keys METRICS) in
  let query_params := join "," metrics in
  [NVIDIA_SMI_BIN; ("--query-gpu=" ++ query_params)%string;
   "--format=csv,noheader,nounits"].

Definition get_metrics (tool : tool_behaviour) : io MetricsData :=
  process <<- subprocess_run query_argv false None tool ;;
  lift (lines_loop (splitlines (proc_stdout process)) []).

Definition check_nvidia_smi (tool : tool_behaviour) : io bool :=
  match subprocess_run [NVIDIA_SMI_BIN; "-L"] true None tool with
  | (t, Raise FileNotFoundError) =>
      (t ++ [Print "Couldn't find the nvidia-smi tool. Make sure it's properly installed in one of the directories in $PATH."],
       Return false)
  | (t, Raise (CalledProcessError _ out err)) =>
      (t ++ [Print "The nvidia-smi tool has encountered an error: "; Print err]
         ++ (if (out =? "")%string then [] else [Print out]),
       Return false)
  | (t, Return process) =>
      let cards := splitlines (proc_stdout process) in
      if (List.length cards =? 0)%nat then
        (t ++ [Print "The nvidia-smi tool didn't detect any GPUs attached to the system."],
         Return false)
      else (t, Return true)
  | (t, Raise e) => (t, Raise e)
  | (t, Blocked) => (t, Blocked)
  end.

(** The [while True] loop of [main], for as many cycles as the world
    describes; it returns only when they are used up. *)
Fixpoint main_loop (project_id zone instance_id : string)
    (cs : list cycle_world) : io unit :=
  match cs with
  | [] => ret tt
  | c :: rest =>
      metrics <<- get_metrics (smi_query c) ;;
      _ <<- report_metrics (clock c) (backend c) metrics project_id zone instance_id ;;
      _ <<- sleep FREQUENCY ;;
      main_loop project_id zone instance_id rest
  end.

Definition main (w : world) : io unit :=
  ok <<- check_nvidia_smi (smi_list w) ;;
  if negb ok then sys_exit 1
  else
    ids <<- try_except (get_instance_params (metadata w)) is_ConnectionError
              (fun err =>
                 _ <<- print "Couldn't connect with the metadata server. Are you sure you are executing this script on Google Compute Engine instance?" ;;
                 _ <<- print ("Encountered error:  " ++ str_exn err)%string ;;
                 sys_exit 2) ;;
    let '(project_id, zone, instance_id) := ids in
    main_loop project_id zone instance_id (cycles w).

(** How the process ends: the interpreter turns what leaves [main] into an
    exit status.  [sys.exit(code)] gives [code]; any other uncaught
    exception prints a traceback and gives status 1; an uncaught
    [KeyboardInterrupt] ends the process by the interrupt signal. *)
Inductive termination : Type :=
| ExitStatus (code : Z)
| KilledByInterrupt
| NotTerminated.

Definition process_end (r : outcome unit) : termination :=
  match r with
  | Raise (SystemExit code) => ExitStatus code
  | Raise KeyboardInterrupt => KilledByInterrupt
  | Raise _ => ExitStatus 1
  | Return _ => NotTerminated
  | Blocked => NotTerminated
  end.

(** [if __name__ == '__main__': main()] (lines 207-208). *)
Definition script (w : world) : list event * termination :=
  (fst (main w), process_end (snd (main w))).

(** * Vocabulary of the statements *)

(** ** Running examples *)

Definition LF : string := String "010" "".

(** One A100, the line [nvidia-smi] prints for the query of [query_argv]. *)
Definition sample_line : string :=
  "A100, 0000:00:04.0, 30720, 40960, 10240, 60, 55, 30".

Definition sample_tool : tool_behaviour := Exits 1 0 (sample_line ++ LF) "".

Definition sample_list_tool : tool_behaviour :=
  Exits 1 0 ("GPU 0: A100 (UUID: GPU-0)" ++ LF) "".

Definition sample_metadata (url : string) : http_behaviour :=
  if (url =? METADATA_URL ++ "zone")%string
  then Responds "projects/123456/zones/europe-west3-c"
  else Responds "987".

(** The sample of the design document, as a [MetricsData]. *)
Definition sample_values : MetricsData :=
  [ (["A100"; "0000:00:04.0"],
     [ ("memory.free", 30720%float); ("memory.total", 40960%float);
       ("memory.used", 10240%float); ("temperature.gpu", 60%float);
       ("utilization.gpu", 55%float); ("utilization.memory", 30%float) ]) ].

Definition sample_cycle : cycle_world :=
  {| smi_query := sample_tool; clock := 1700000000.25%float; backend := None |}.

(** ** Startup *)

Definition list_argv : list string := [NVIDIA_SMI_BIN; "-L"].

Definition zone_url : string := (METADATA_URL ++ "zone")%string.
Definition id_url : string := (METADATA_URL ++ "id")%string.

Definition msg_not_found : string :=
  "Couldn't find the nvidia-smi tool. Make sure it's properly installed in one of the directories in $PATH.".
Definition msg_no_gpus : string :=
  "The nvidia-smi tool didn't detect any GPUs attached to the system.".
Definition msg_tool_error : string :=
  "The nvidia-smi tool has encountered an error: ".
Definition msg_no_metadata : string :=
  "Couldn't connect with the metadata server. Are you sure you are executing this script on Google Compute Engine instance?".

(** The listing succeeded and shows at least one card. *)
Definition lists_a_card (tool : tool_behaviour) : bool :=
  match tool with
  | Exits _ rc out _ => (rc =? 0) && negb (List.length (splitlines out) =? 0)%nat
  | _ => false
  end.

(** Startup worlds, one per failure kind of the design document. *)
Definition world_tool_missing : world :=
  {| smi_list := NotFound; metadata := sample_metadata; cycles := [sample_cycle] |}.

Definition world_tool_error : world :=
  {| smi_list := Exits 1 9 "" "NVIDIA-SMI has failed";
     metadata := sample_metadata; cycles := [sample_cycle] |}.

Definition world_no_devices : world :=
  {| smi_list := Exits 1 0 "" ""; metadata := sample_metadata;
     cycles := [sample_cycle] |}.

Definition world_no_metadata : world :=
  {| smi_list := sample_list_tool;
     metadata := fun _ => Unreachable "Max retries exceeded";
     cycles := [sample_cycle] |}.

(** A zone answer with two segments only. *)
Definition world_short_zone : world :=
  {| smi_list := sample_list_tool;
     metadata := fun _ => Responds "zones/europe-west3-c";
     cycles := [sample_cycle] |}.

(** ** Probe output *)

(** [float] accepts the field. *)
Definition numeric (field : string) : bool :=
  match py_float field with
  | Return _ => true
  | _ => false
  end.

(** The key a line is filed under, and the fields [float] is applied to:
    as many of the value fields as there are catalog keys. *)
Definition line_key (line : string) : list string := firstn 2 (split "," line).

Definition line_values (line : string) : list string :=
  firstn (List.length (sorted (keys METRICS))) (skipn 2 (split "," line)).

(** The dictionary a line is turned into. *)
Definition line_dict (line : string) : outcome (list (string * float)) :=
  zip_floats (sorted (keys METRICS)) (skipn 2 (split "," line)) [].

Definition line_parses (line : string) : bool := forallb numeric (line_values line).

(** A card whose memory columns are not supported, before a healthy one. *)
Definition tool_with_na : tool_behaviour :=
  Exits 1 0 ("T4, 0000:00:05.0, [N/A], [N/A], [N/A], 41, 0, 0" ++ LF
             ++ sample_line ++ LF) "".

(** A line of three fields, before a healthy one. *)
Definition tool_with_short_line : tool_behaviour :=
  Exits 1 0 ("T4, 0000:00:05.0, 15109" ++ LF ++ sample_line ++ LF) "".

Definition world_with (first : cycle_world) : world :=
  {| smi_list := sample_list_tool; metadata := sample_metadata;
     cycles := [first; sample_cycle] |}.

Definition cycle_probe (tool : tool_behaviour) : cycle_world :=
  {| smi_query := tool; clock := 1700000000.25%float; backend := None |}.

(** What startup leaves in the trace when it succeeds. *)
Definition startup_trace : list event :=
  [Run list_argv; Get zone_url METADATA_HEADERS; Get id_url METADATA_HEADERS].

(** ** Published series *)

(** The labels every series of a cycle carries for its host. *)
Definition host_labels (project_id zone instance_id : string)
    : list (string * string) :=
  [("instance_id", instance_id); ("zone", zone); ("project_id", project_id)].

Definition device_labels (gpu_type gpu_bus_id : string) : list (string * string) :=
  [("gpu_type", gpu_type); ("gpu_bus_id", gpu_bus_id)].

(** The series of metric [gcp_metric] of device [(gpu_type, gpu_bus_id)]
    with value [v], stamped [(seconds, nanos)]. *)
Definition series_of (seconds nanos : Z) (project_id zone instance_id : string)
    (gpu_type gpu_bus_id gcp_metric : string) (v : float) : TimeSeries :=
  {| resource_type := "gce_instance";
     resource_labels := host_labels project_id zone instance_id;
     metric_type := ("custom.googleapis.com/" ++ gcp_metric)%string;
     metric_labels := device_labels gpu_type gpu_bus_id;
     points := [ {| end_time_seconds := seconds; end_time_nanos := nanos;
                    double_value := v |} ] |}.

(** The values of a device, in the order of [metric_pairs]. *)
Fixpoint device_values (metrics : list (string * float))
    (pairs : list (string * string)) : outcome (list float) :=
  match pairs with
  | [] => Return []
  | (smi_metric, gcp_metric) :: rest =>
      v <- series_value metrics smi_metric gcp_metric ;;
      vs <- device_values metrics rest ;;
      Return (v :: vs)
  end.

(** The series of one entry of the sample set. *)
Definition entry_series (seconds nanos : Z) (project_id zone instance_id : string)
    (entry : list string * list (string * float)) : outcome (list TimeSeries) :=
  match fst entry with
  | [gpu_type; gpu_bus_id] =>
      vs <- device_values (snd entry) metric_pairs ;;
      Return (map (fun pv =>
                     series_of seconds nanos project_id zone instance_id
                       gpu_type gpu_bus_id (snd (fst pv)) (snd pv))
                  (combine metric_pairs vs))
  | _ => Raise (unpack_error (fst entry))
  end.

Fixpoint all_series (seconds nanos : Z) (project_id zone instance_id : string)
    (items : MetricsData) : outcome (list TimeSeries) :=
  match items with
  | [] => Return []
  | entry :: rest =>
      s <- entry_series seconds nanos project_id zone instance_id entry ;;
      r <- all_series seconds nanos project_id zone instance_id rest ;;
      Return (s ++ r)
  end.

(** ** Well-formed samples *)

Definition has_key (metrics : list (string * float)) (k : string) : bool :=
  match dict_get String.eqb metrics k with
  | Some _ => true
  | None => false
  end.

(** The entry has a value for every catalog key. *)
Definition complete (metrics : list (string * float)) : bool :=
  forallb (has_key metrics) (keys METRICS).

(** Neither NaN nor an infinity. *)
Definition finite (x : float) : bool :=
  match Prim2SF x with
  | S754_nan | S754_infinity _ => false
  | _ => true
  end.

(** [memory.total] is present and equal to zero. *)
Definition total_is_zero (metrics : list (string * float)) : bool :=
  match dict_get String.eqb metrics "memory.total" with
  | Some total => PrimFloat.eqb total 0%float
  | None => false
  end.

(** The percentage can be computed and rounded. *)
Definition percent_defined (metrics : list (string * float)) : bool :=
  match dict_get String.eqb metrics "memory.used",
        dict_get String.eqb metrics "memory.total" with
  | Some used, Some total =>
      negb (PrimFloat.eqb total 0%float)
      && finite (used / total * float_of_int 100)%float
  | _, _ => false
  end.

Definition well_formed_entry (entry : list string * list (string * float)) : bool :=
  match fst entry with
  | [_; _] => complete (snd entry) && percent_defined (snd entry)
  | _ => false
  end.

(** The clock reading splits into seconds and nanoseconds that fit the
    fields of a [Timestamp]. *)
Definition clock_ok (now : float) : bool :=
  match py_int now with
  | Return seconds =>
      match py_int ((now - float_of_int seconds) * float_of_int (10 ^ 9))%float with
      | Return nanos => in_int64 seconds && in_int32 nanos
      | _ => false
      end
  | _ => false
  end.

(** The metric labels of the series of an entry. *)
Definition labels_of_key (key : list string) : list (string * string) :=
  match key with
  | [gpu_type; gpu_bus_id] => device_labels gpu_type gpu_bus_id
  | _ => []
  end.

(** The (labels, metric type) pairs a sample set is published under: for
    each device, the catalog metrics and then the derived one. *)
Definition published_pairs (values : MetricsData)
    : list (list (string * string) * string) :=
  flat_map (fun entry =>
              map (fun pair => (labels_of_key (fst entry),
                                ("custom.googleapis.com/" ++ snd pair)%string))
                  metric_pairs)
           values.

(** Stamped at [(seconds, nanos)] for the host [(project_id, zone, instance_id)]. *)
Definition stamped (seconds nanos : Z) (project_id zone instance_id : string)
    (ts : TimeSeries) : Prop :=
  resource_type ts = "gce_instance"
  /\ resource_labels ts = host_labels project_id zone instance_id
  /\ map (fun pt => (end_time_seconds pt, end_time_nanos pt)) (points ts)
     = [(seconds, nanos)].

Definition is_print (ev : event) : bool :=
  match ev with
  | Print _ => true
  | _ => false
  end.

(** Sample sets with a healthy A100 and a second card that is not. *)
Definition values_zero_total : MetricsData :=
  sample_values ++
  [ (["T4"; "0000:00:05.0"],
     [ ("memory.free", 0%float); ("memory.total", 0%float);
       ("memory.used", 0%float); ("temperature.gpu", 41%float);
       ("utilization.gpu", 0%float); ("utilization.memory", 0%float) ]) ].

Definition values_missing_key : MetricsData :=
  sample_values ++
  [ (["T4"; "0000:00:05.0"], [ ("memory.free", 15109%float) ]) ].

Definition tool_with_zero_total : tool_behaviour :=
  Exits 1 0 (sample_line ++ LF ++ "T4, 0000:00:05.0, 0, 0, 0, 41, 0, 0" ++ LF) "".

(** The host of the running examples. *)
Definition sample_project : string := "123456".
Definition sample_zone : string := "europe-west3-c".
Definition sample_instance : string := "987".

(** What [get_metrics] makes of [sample_tool]: the bus id keeps the blank
    that follows the comma. *)
Definition sample_parsed : MetricsData :=
  [ (["A100"; " 0000:00:04.0"],
     [ ("memory.free", 30720%float); ("memory.total", 40960%float);
       ("memory.used", 10240%float); ("temperature.gpu", 60%float);
       ("utilization.gpu", 55%float); ("utilization.memory", 30%float) ]) ].

(** The batch of the sample cycle. *)
Definition sample_series : list TimeSeries :=
  match build_series (clock sample_cycle) sample_parsed
          sample_project sample_zone sample_instance with
  | Return series => series
  | _ => []
  end.

(** A cycle whose submission the backend refuses. *)
Definition refused_cycle : cycle_world :=
  {| smi_query := sample_tool; clock := 1700000000.25%float;
     backend := Some (ApiError "503 Service Unavailable") |}.

(** ** Further vocabulary *)

(** The character occurs in the string. *)
Fixpoint has_char (c : ascii) (s : string) : bool :=
  match s with
  | EmptyString => false
  | String c' s' => Ascii.eqb c' c || has_char c s'
  end.

(** The zone path the metadata server answers with. *)
Definition zone_path (project_id zone : string) : string :=
  ("projects/" ++ project_id ++ "/zones/" ++ zone)%string.

Definition is_create (ev : event) : bool :=
  match ev with
  | CreateTimeSeries _ _ => true
  | _ => false
  end.

Definition is_sleep (ev : event) : bool :=
  match ev with
  | Sleep _ => true
  | _ => false
  end.

(** A series without the time of its points. *)
Definition unstamped (ts : TimeSeries)
    : string * list (string * string) * string * list (string * string)
      * list float :=
  (resource_type ts, resource_labels ts, metric_type ts, metric_labels ts,
   map double_value (points ts)).

(** A cycle that was interrupted from the keyboard during the submission. *)
Definition interrupted_cycle : cycle_world :=
  {| smi_query := sample_tool; clock := 1700000000.25%float;
     backend := Some KeyboardInterrupt |}.

(** A cycle in which the tool prints nothing. *)
Definition silent_cycle : cycle_world :=
  {| smi_query := Exits 1 0 "" ""; clock := 1700000000.25%float;
     backend := None |}.

(** The keys of a list, each at its first occurrence, skipping those of
    [seen]. *)
Fixpoint first_occurrences (seen ks : list (list string)) : list (list string) :=
  match ks with
  | [] => []
  | k :: rest =>
      if existsb (fun k' => tuple_eqb k' k) seen
      then first_occurrences seen rest
      else k :: first_occurrences (seen ++ [k]) rest
  end.

(** Two cards, the first of them printed twice with different readings. *)
Definition tool_with_repeated_card : tool_behaviour :=
  Exits 1 0 (sample_line ++ LF ++ "T4, 0000:00:05.0, 15109, 15109, 0, 41, 0, 0" ++ LF
             ++ "A100, 0000:00:04.0, 20480, 40960, 20480, 61, 90, 50" ++ LF) "".

(** A blank line after the sample line. *)
Definition tool_with_blank_line : tool_behaviour :=
  Exits 1 0 (sample_line ++ LF ++ LF) "".

(** The exceptions [report_metrics] can raise before it submits. *)
Definition build_error (e : exn) : bool :=
  match e with
  | KeyError _ | ZeroDivisionError | ValueError _ | OverflowError => true
  | _ => false
  end.

(** The sample cycle ten seconds later. *)
Definition later_cycle : cycle_world :=
  {| smi_query := sample_tool; clock := 1700000010.5%float; backend := None |}.

(** The cycle runs to its sleep: the probe returns, the series are built,
    and the backend accepts the batch or raises an [Exception]. *)
Definition cycle_completes (p z i : string) (c : cycle_world) : bool :=
  match get_metrics (smi_query c) with
  | (_, Return values) =>
      match build_series (clock c) values p z i with
      | Return _ =>
          match backend c with
          | None => true
          | Some e => is_Exception e
          end
      | _ => false
      end
  | _ => false
  end.

(** How many cycles complete before the first that does not. *)
Fixpoint completed_cycles (p z i : string) (cs : list cycle_world) : nat :=
  match cs with
  | [] => 0
  | c :: rest =>
      if cycle_completes p z i c then S (completed_cycles p z i rest) else 0
  end.

Definition is_probe (ev : event) : bool :=
  match ev with
  | Run _ => true
  | _ => false
  end.

(** An event of the loop: the metric query, a submission, a message or the
    sleep. *)
Definition loop_event (ev : event) : bool :=
  match ev with
  | Run argv => tuple_eqb argv query_argv
  | Get _ _ => false
  | _ => true
  end.

Definition is_get (ev : event) : bool :=
  match ev with
  | Get _ _ => true
  | _ => false
  end.

(** The columns the query asks for, in order. *)
Definition requested_columns : list string :=
  ["gpu_name"; "gpu_bus_id"] ++ sorted (keys METRICS).

(** * Properties *)

(** ** Basic facts about the monad *)

Lemma iobind_return {A B} (m : io A) (f : A -> io B) t a :
  m = (t, Return a) -> iobind m f = (t ++ fst (f a), snd (f a)).
Proof. intros ->. unfold iobind. destruct (f a); reflexivity. Qed.

Lemma iobind_raise {A B} (m : io A) (f : A -> io B) t e :
  m = (t, Raise e) -> iobind m f = (t, Raise e).
Proof. intros ->. reflexivity. Qed.

Lemma iobind_blocked {A B} (m : io A) (f : A -> io B) t :
  m = (t, Blocked) -> iobind m f = (t, Blocked).
Proof. intros ->. reflexivity. Qed.

Lemma iobind_lift {A B} (m : outcome A) (f : A -> io B) :
  iobind (lift m) f =
  match m with
  | Return a => f a
  | Raise e => ([], Raise e)
  | Blocked => ([], Blocked)
  end.
Proof. destruct m; cbn; try reflexivity. destruct (f a); reflexivity. Qed.

(** ** Startup *)

Lemma check_nvidia_smi_true tool :
  lists_a_card tool = true ->
  check_nvidia_smi tool = ([Run list_argv], Return true).
Proof.
  destruct tool as [| | |el rc out err|]; cbn; try discriminate.
  intros H. apply andb_prop in H as [Hrc Hcards].
  unfold check_nvidia_smi, subprocess_run. rewrite Hrc. cbn.
  apply negb_true_iff in Hcards. rewrite Hcards. reflexivity.
Qed.

Lemma check_nvidia_smi_not_found :
  check_nvidia_smi NotFound = ([Run list_argv; Print msg_not_found], Return false).
Proof. reflexivity. Qed.

Lemma check_nvidia_smi_tool_error el rc out err :
  rc <> 0 ->
  check_nvidia_smi (Exits el rc out err) =
  ([Run list_argv; Print msg_tool_error; Print err]
     ++ (if (out =? "")%string then [] else [Print out]),
   Return false).
Proof.
  intros H. apply Z.eqb_neq in H.
  unfold check_nvidia_smi, subprocess_run. rewrite H. reflexivity.
Qed.

Lemma check_nvidia_smi_no_cards el out err :
  splitlines out = [] ->
  check_nvidia_smi (Exits el 0 out err) =
  ([Run list_argv; Print msg_no_gpus], Return false).
Proof.
  intros H. unfold check_nvidia_smi, subprocess_run. cbn. rewrite H. reflexivity.
Qed.

Lemma main_check_failed w t :
  check_nvidia_smi (smi_list w) = (t, Return false) ->
  main w = (t, Raise (SystemExit 1)).
Proof.
  intros H. unfold main. rewrite (iobind_return _ _ _ _ H). cbn.
  now rewrite app_nil_r.
Qed.

Lemma get_instance_params_zone_unreachable server msg :
  server zone_url = Unreachable msg ->
  get_instance_params server = ([Get zone_url METADATA_HEADERS], Raise (ConnectionError msg)).
Proof.
  intros H. unfold get_instance_params, requests_get_text.
  fold zone_url. rewrite H. reflexivity.
Qed.

Lemma get_instance_params_short_path server data :
  server zone_url = Responds data ->
  (List.length (split "/" data) < 4)%nat ->
  get_instance_params server = ([Get zone_url METADATA_HEADERS], Raise IndexError).
Proof.
  intros H Hlen. unfold get_instance_params, requests_get_text.
  fold zone_url. rewrite H. cbn [iobind]. rewrite iobind_lift.
  unfold getindex.
  destruct (nth_error (split "/" data) 3) eqn:E.
  - assert (nth_error (split "/" data) 3 <> None) as N by congruence.
    apply nth_error_Some in N. lia.
  - reflexivity.
Qed.

Lemma get_instance_params_id_unreachable server data zone project_id msg :
  server zone_url = Responds data ->
  nth_error (split "/" data) 3 = Some zone ->
  nth_error (split "/" data) 1 = Some project_id ->
  server id_url = Unreachable msg ->
  get_instance_params server =
  ([Get zone_url METADATA_HEADERS; Get id_url METADATA_HEADERS], Raise (ConnectionError msg)).
Proof.
  intros H Hz Hp Hid. unfold get_instance_params, requests_get_text.
  fold zone_url id_url. rewrite H, Hid. cbn [iobind].
  rewrite iobind_lift. unfold getindex. rewrite Hz.
  rewrite iobind_lift. rewrite Hp. reflexivity.
Qed.

Lemma get_instance_params_ok server data zone project_id instance_id :
  server zone_url = Responds data ->
  nth_error (split "/" data) 3 = Some zone ->
  nth_error (split "/" data) 1 = Some project_id ->
  server id_url = Responds instance_id ->
  get_instance_params server =
  ([Get zone_url METADATA_HEADERS; Get id_url METADATA_HEADERS], Return (project_id, zone, instance_id)).
Proof.
  intros H Hz Hp Hid. unfold get_instance_params, requests_get_text.
  fold zone_url id_url. rewrite H, Hid. cbn [iobind].
  rewrite iobind_lift. unfold getindex. rewrite Hz.
  rewrite iobind_lift. rewrite Hp. reflexivity.
Qed.

(** The only ways [get_instance_params] can end. *)
Lemma get_instance_params_cases server :
  (exists msg, server zone_url = Unreachable msg /\
     get_instance_params server = ([Get zone_url METADATA_HEADERS], Raise (ConnectionError msg)))
  \/ (exists data, server zone_url = Responds data /\
        (List.length (split "/" data) < 4)%nat /\
        get_instance_params server = ([Get zone_url METADATA_HEADERS], Raise IndexError))
  \/ (exists msg, server id_url = Unreachable msg /\
        get_instance_params server =
        ([Get zone_url METADATA_HEADERS; Get id_url METADATA_HEADERS], Raise (ConnectionError msg)))
  \/ (exists ids, get_instance_params server =
        ([Get zone_url METADATA_HEADERS; Get id_url METADATA_HEADERS], Return ids)).
Proof.
  destruct (server zone_url) as [msg|data] eqn:Hz.
  - left. exists msg. split; [reflexivity|].
    now apply get_instance_params_zone_unreachable.
  - right.
    destruct (nth_error (split "/" data) 3) as [zone|] eqn:E3.
    + assert (exists project_id, nth_error (split "/" data) 1 = Some project_id)
        as [project_id E1].
      { destruct (nth_error (split "/" data) 1) eqn:E1; [eauto|].
        apply nth_error_None in E1.
        assert (nth_error (split "/" data) 3 <> None) as N by congruence.
        apply nth_error_Some in N. lia. }
      right. destruct (server id_url) as [msg|instance_id] eqn:Hid.
      * left. exists msg. split; [reflexivity|].
        eapply get_instance_params_id_unreachable; eauto.
      * right. exists (project_id, zone, instance_id).
        eapply get_instance_params_ok; eauto.
    + left. exists data. apply nth_error_None in E3.
      split; [reflexivity|]. split; [lia|].
      apply get_instance_params_short_path with (data := data); [assumption|lia].
Qed.

Lemma main_connection_error w t msg :
  lists_a_card (smi_list w) = true ->
  get_instance_params (metadata w) = (t, Raise (ConnectionError msg)) ->
  main w =
  ([Run list_argv] ++ t ++
     [Print msg_no_metadata; Print ("Encountered error:  " ++ msg)%string],
   Raise (SystemExit 2)).
Proof.
  intros Hc Hg. unfold main.
  rewrite (iobind_return _ _ _ _ (check_nvidia_smi_true _ Hc)).
  cbn [negb fst snd]. rewrite Hg. reflexivity.
Qed.

Lemma main_identity_raises w t e :
  lists_a_card (smi_list w) = true ->
  get_instance_params (metadata w) = (t, Raise e) ->
  is_ConnectionError e = false ->
  main w = ([Run list_argv] ++ t, Raise e).
Proof.
  intros Hc Hg He. unfold main.
  rewrite (iobind_return _ _ _ _ (check_nvidia_smi_true _ Hc)).
  cbn [negb fst snd]. rewrite Hg. unfold try_except. rewrite He. reflexivity.
Qed.

Lemma main_enters_loop w t project_id zone instance_id :
  lists_a_card (smi_list w) = true ->
  get_instance_params (metadata w) = (t, Return (project_id, zone, instance_id)) ->
  main w =
  ([Run list_argv] ++ t ++ fst (main_loop project_id zone instance_id (cycles w)),
   snd (main_loop project_id zone instance_id (cycles w))).
Proof.
  intros Hc Hg. unfold main.
  rewrite (iobind_return _ _ _ _ (check_nvidia_smi_true _ Hc)).
  cbn [negb fst snd]. rewrite Hg. unfold try_except.
  rewrite (iobind_return _ _ t (project_id, zone, instance_id) eq_refl).
  reflexivity.
Qed.

Lemma check_nvidia_smi_cases tool :
  lists_a_card tool = true
  \/ (exists t, check_nvidia_smi tool = (t, Return false))
  \/ check_nvidia_smi tool = ([Run list_argv], Blocked)
  \/ (exists e, check_nvidia_smi tool = ([Run list_argv], Raise e)
                /\ (e = PermissionError \/ exists errno msg, e = OSError errno msg)).
Proof.
  destruct tool as [| |errno msg|el rc out err|].
  - right; left. eexists. apply check_nvidia_smi_not_found.
  - right; right; right. exists PermissionError. split; [reflexivity|now left].
  - right; right; right. exists (OSError errno msg).
    split; [reflexivity|right; eauto].
  - destruct (Z.eq_dec rc 0) as [->|Hrc].
    + destruct (splitlines out) eqn:E.
      * right; left. eexists. now apply check_nvidia_smi_no_cards.
      * left. cbn. rewrite E. reflexivity.
    + right; left. eexists. now apply check_nvidia_smi_tool_error.
  - right; right; left. reflexivity.
Qed.

Lemma main_check_raises w e :
  check_nvidia_smi (smi_list w) = ([Run list_argv], Raise e) ->
  main w = ([Run list_argv], Raise e).
Proof. intros H. unfold main. now rewrite (iobind_raise _ _ _ _ H). Qed.

Lemma main_check_blocked w :
  check_nvidia_smi (smi_list w) = ([Run list_argv], Blocked) ->
  main w = ([Run list_argv], Blocked).
Proof. intros H. unfold main. now rewrite (iobind_blocked _ _ _ H). Qed.

(** C5, as the code has it: every startup failure ends the process before
    the loop (the trace holds neither the metric query nor a submission and
    does not depend on the cycles); a missing tool, a failing tool and an
    empty device list all exit with code 1, an unreachable metadata server
    with code 2.  Two non-zero codes, not three. *)
Theorem C5_startup_failures_exit_before_loop (w : world) :
  (smi_list w = NotFound ->
   main w = ([Run list_argv; Print msg_not_found], Raise (SystemExit 1)))
  /\ (forall el rc out err,
        smi_list w = Exits el rc out err -> rc <> 0 ->
        main w =
        ([Run list_argv; Print msg_tool_error; Print err]
           ++ (if (out =? "")%string then [] else [Print out]),
         Raise (SystemExit 1)))
  /\ (forall el out err,
        smi_list w = Exits el 0 out err -> splitlines out = [] ->
        main w = ([Run list_argv; Print msg_no_gpus], Raise (SystemExit 1)))
  /\ (forall msg,
        lists_a_card (smi_list w) = true ->
        metadata w zone_url = Unreachable msg ->
        main w =
        ([Run list_argv; Get zone_url METADATA_HEADERS; Print msg_no_metadata;
          Print ("Encountered error:  " ++ msg)%string],
         Raise (SystemExit 2)))
  /\ (forall msg data zone project_id,
        lists_a_card (smi_list w) = true ->
        metadata w zone_url = Responds data ->
        nth_error (split "/" data) 3 = Some zone ->
        nth_error (split "/" data) 1 = Some project_id ->
        metadata w id_url = Unreachable msg ->
        main w =
        ([Run list_argv; Get zone_url METADATA_HEADERS; Get id_url METADATA_HEADERS; Print msg_no_metadata;
          Print ("Encountered error:  " ++ msg)%string],
         Raise (SystemExit 2))).
Proof.
  repeat split.
  - intros H. apply main_check_failed. rewrite H.
    apply check_nvidia_smi_not_found.
  - intros el rc out err H Hrc. apply main_check_failed. rewrite H.
    now apply check_nvidia_smi_tool_error.
  - intros el out err H Hout. apply main_check_failed. rewrite H.
    now apply check_nvidia_smi_no_cards.
  - intros msg Hc Hz.
    rewrite (main_connection_error w [Get zone_url METADATA_HEADERS] msg Hc); [reflexivity|].
    now apply get_instance_params_zone_unreachable.
  - intros msg data zone project_id Hc Hz H3 H1 Hid.
    rewrite (main_connection_error w [Get zone_url METADATA_HEADERS; Get id_url METADATA_HEADERS] msg Hc);
      [reflexivity|].
    eapply get_instance_params_id_unreachable; eauto.
Qed.

(** The four failure kinds at concrete worlds: codes 1, 1, 1 and 2. *)
Lemma C5_startup_failures_witness :
  snd (main world_tool_missing) = Raise (SystemExit 1)
  /\ snd (main world_tool_error) = Raise (SystemExit 1)
  /\ snd (main world_no_devices) = Raise (SystemExit 1)
  /\ snd (main world_no_metadata) = Raise (SystemExit 2).
Proof.
  destruct (C5_startup_failures_exit_before_loop world_tool_missing)
    as (H1 & _).
  destruct (C5_startup_failures_exit_before_loop world_tool_error)
    as (_ & H2 & _).
  destruct (C5_startup_failures_exit_before_loop world_no_devices)
    as (_ & _ & H3 & _).
  destruct (C5_startup_failures_exit_before_loop world_no_metadata)
    as (_ & _ & _ & H4 & _).
  split; [|split; [|split]].
  - rewrite H1; reflexivity.
  - rewrite (H2 1 9 ""%string "NVIDIA-SMI has failed"%string);
      [reflexivity | reflexivity | lia].
  - rewrite (H3 1 ""%string ""%string); reflexivity.
  - rewrite (H4 "Max retries exceeded"%string); reflexivity.
Defined.

(** C5 as stated fails: a missing tool, a tool error and an empty device
    list are three failure kinds with one and the same exit code. *)
Lemma C5_counterexample :
  exists code,
    snd (main world_tool_missing) = Raise (SystemExit code)
    /\ snd (main world_tool_error) = Raise (SystemExit code)
    /\ snd (main world_no_devices) = Raise (SystemExit code).
Proof. exists 1. repeat split; reflexivity. Qed.

(** ** One cycle *)

Lemma get_metrics_exits el rc out err :
  get_metrics (Exits el rc out err) =
  ([Run query_argv], lines_loop (splitlines out) []).
Proof.
  unfold get_metrics, subprocess_run. cbn [andb iobind proc_stdout lift].
  reflexivity.
Qed.

Lemma get_metrics_not_found :
  get_metrics NotFound = ([Run query_argv], Raise FileNotFoundError).
Proof. reflexivity. Qed.

Lemma get_metrics_never_exits :
  get_metrics NeverExits = ([Run query_argv], Blocked).
Proof. reflexivity. Qed.

Lemma report_metrics_build_raises now reply values p z i e :
  build_series now values p z i = Raise e ->
  report_metrics now reply values p z i = ([], Raise e).
Proof. intros H. unfold report_metrics. rewrite H. reflexivity. Qed.

Lemma report_metrics_accepted now values p z i series :
  build_series now values p z i = Return series ->
  report_metrics now None values p z i =
  ([CreateTimeSeries ("projects/" ++ p)%string series], Return tt).
Proof. intros H. unfold report_metrics. rewrite H. reflexivity. Qed.

Lemma report_metrics_caught now values p z i series e :
  build_series now values p z i = Return series ->
  is_Exception e = true ->
  report_metrics now (Some e) values p z i =
  ([CreateTimeSeries ("projects/" ++ p)%string series;
    Print "Encountered an error:"; Print (str_exn e)],
   Return tt).
Proof.
  intros H He. unfold report_metrics. rewrite H.
  cbn [lift iobind create_time_series try_except]. rewrite He. reflexivity.
Qed.

Lemma report_metrics_uncaught now values p z i series e :
  build_series now values p z i = Return series ->
  is_Exception e = false ->
  report_metrics now (Some e) values p z i =
  ([CreateTimeSeries ("projects/" ++ p)%string series], Raise e).
Proof.
  intros H He. unfold report_metrics. rewrite H.
  cbn [lift iobind create_time_series try_except]. rewrite He. reflexivity.
Qed.

Lemma main_loop_probe_raises p z i c rest t e :
  get_metrics (smi_query c) = (t, Raise e) ->
  main_loop p z i (c :: rest) = (t, Raise e).
Proof. intros H. cbn [main_loop]. now rewrite (iobind_raise _ _ _ _ H). Qed.

Lemma main_loop_probe_blocked p z i c rest t :
  get_metrics (smi_query c) = (t, Blocked) ->
  main_loop p z i (c :: rest) = (t, Blocked).
Proof. intros H. cbn [main_loop]. now rewrite (iobind_blocked _ _ _ H). Qed.

Lemma main_loop_report_raises p z i c rest t values t' e :
  get_metrics (smi_query c) = (t, Return values) ->
  report_metrics (clock c) (backend c) values p z i = (t', Raise e) ->
  main_loop p z i (c :: rest) = (t ++ t', Raise e).
Proof.
  intros H H'. cbn [main_loop]. rewrite (iobind_return _ _ _ _ H).
  now rewrite (iobind_raise _ _ _ _ H').
Qed.

Lemma main_loop_next_cycle p z i c rest t values t' :
  get_metrics (smi_query c) = (t, Return values) ->
  report_metrics (clock c) (backend c) values p z i = (t', Return tt) ->
  main_loop p z i (c :: rest) =
  (t ++ t' ++ [Sleep FREQUENCY] ++ fst (main_loop p z i rest),
   snd (main_loop p z i rest)).
Proof.
  intros H H'. cbn [main_loop]. rewrite (iobind_return _ _ _ _ H).
  rewrite (iobind_return _ _ _ _ H'). unfold sleep.
  rewrite (iobind_return _ _ [Sleep FREQUENCY] tt eq_refl).
  reflexivity.
Qed.

(** ** Parsing the probe output *)

Lemma py_float_raises s e :
  py_float s = Raise e ->
  e = ValueError ("could not convert string to float: " ++ py_repr s)%string.
Proof.
  unfold py_float.
  destruct (if has_underscore _ then _ else _) as [l1|]; [|congruence].
  destruct (parse_decimal _) as [[[neg m] e']|]; [discriminate|].
  destruct (parse_inf_or_nan _); [discriminate|congruence].
Qed.

Lemma py_float_not_blocked s : py_float s <> Blocked.
Proof.
  unfold py_float.
  destruct (if has_underscore _ then _ else _) as [l1|]; [|discriminate].
  destruct (parse_decimal _) as [[[neg m] e']|]; [discriminate|].
  destruct (parse_inf_or_nan _); discriminate.
Qed.

Lemma numeric_true field :
  numeric field = true -> exists x, py_float field = Return x.
Proof. unfold numeric. destruct (py_float field); eauto; discriminate. Qed.

Lemma numeric_false field :
  numeric field = false ->
  py_float field =
  Raise (ValueError ("could not convert string to float: " ++ py_repr field)%string).
Proof.
  unfold numeric. destruct (py_float field) eqn:E; try discriminate.
  - intros _. now rewrite (py_float_raises _ _ E).
  - now destruct (py_float_not_blocked field).
Qed.

(** [zip_floats] returns exactly when the fields it reaches are numeric. *)
Lemma zip_floats_returns ks : forall fields d,
  forallb numeric (firstn (List.length ks) fields) = true ->
  exists d', zip_floats ks fields d = Return d'.
Proof.
  induction ks as [|k ks IH]; intros fields d H; cbn; [eauto|].
  destruct fields as [|f fields]; [eauto|].
  cbn in H. apply andb_prop in H as [Hf Hrest].
  destruct (numeric_true _ Hf) as [x ->]. cbn. now apply IH.
Qed.

Lemma zip_floats_raises ks : forall fields d,
  forallb numeric (firstn (List.length ks) fields) = false ->
  exists msg, zip_floats ks fields d = Raise (ValueError msg).
Proof.
  induction ks as [|k ks IH]; intros fields d H; cbn in *; [discriminate|].
  destruct fields as [|f fields]; [discriminate|].
  cbn in H. destruct (numeric f) eqn:Hf.
  - destruct (numeric_true _ Hf) as [x ->]. cbn. now apply IH.
  - rewrite (numeric_false _ Hf). cbn. eauto.
Qed.

Lemma lines_loop_returns lines : forall data,
  forallb line_parses lines = true ->
  exists data', lines_loop lines data = Return data'.
Proof.
  induction lines as [|line lines IH]; intros data H; cbn [lines_loop];
    [eauto|].
  cbn [forallb] in H. apply andb_prop in H as [Hl Hrest].
  destruct (zip_floats_returns _ _ [] Hl) as [d ->]. cbn [obind].
  now apply IH.
Qed.

Lemma lines_loop_raises lines : forall data,
  forallb line_parses lines = false ->
  exists msg, lines_loop lines data = Raise (ValueError msg).
Proof.
  induction lines as [|line lines IH]; intros data H;
    cbn [lines_loop forallb] in *; [discriminate|].
  destruct (line_parses line) eqn:Hl.
  - destruct (zip_floats_returns _ _ [] Hl) as [d ->]. cbn [obind].
    now apply IH.
  - destruct (zip_floats_raises _ _ [] Hl) as [msg ->]. cbn [obind]. eauto.
Qed.

Lemma lines_loop_cases lines data :
  (exists data', lines_loop lines data = Return data')
  \/ (exists msg, lines_loop lines data = Raise (ValueError msg)).
Proof.
  destruct (forallb line_parses lines) eqn:E.
  - left. now apply lines_loop_returns.
  - right. now apply lines_loop_raises.
Qed.

(** ** Dictionaries *)

Section DictFacts.
Context {K V : Type} (eqb : K -> K -> bool).
Hypothesis eqb_eq : forall a b, eqb a b = true <-> a = b.

Lemma eqb_same a : eqb a a = true.
Proof. now apply eqb_eq. Qed.

Lemma eqb_other a b : a <> b -> eqb a b = false.
Proof.
  intros N. destruct (eqb a b) eqn:E; [|reflexivity].
  now apply eqb_eq in E.
Qed.

Lemma dict_get_set_same (d : dict (V := V)) k v :
  dict_get eqb (dict_set eqb d k v) k = Some v.
Proof.
  induction d as [|[k' v'] d IH]; cbn.
  - now rewrite eqb_same.
  - destruct (eqb k' k) eqn:E; cbn; rewrite E; [reflexivity|exact IH].
Qed.

Lemma dict_get_set_other (d : dict (V := V)) k k' v :
  k <> k' -> dict_get eqb (dict_set eqb d k v) k' = dict_get eqb d k'.
Proof.
  intros N. induction d as [|[k0 v0] d IH]; cbn.
  - now rewrite (eqb_other _ _ N).
  - destruct (eqb k0 k) eqn:E; cbn.
    + apply eqb_eq in E. subst k0. now rewrite (eqb_other _ _ N).
    + now rewrite IH.
Qed.

Lemma dict_set_fresh (d : dict (V := V)) k v :
  dict_get eqb d k = None -> dict_set eqb d k v = d ++ [(k, v)].
Proof.
  induction d as [|[k0 v0] d IH]; cbn; [reflexivity|].
  destruct (eqb k0 k); [discriminate|]. intros H. now rewrite IH.
Qed.

Lemma dict_get_In (d : dict (V := V)) k v :
  dict_get eqb d k = Some v -> In (k, v) d.
Proof.
  induction d as [|[k0 v0] d IH]; cbn; [discriminate|].
  destruct (eqb k0 k) eqn:E.
  - apply eqb_eq in E. intros [= ->]. left. now subst.
  - intros H. right. now apply IH.
Qed.
End DictFacts.

Lemma tuple_eqb_eq a : forall b, tuple_eqb a b = true <-> a = b.
Proof.
  induction a as [|x a IH]; intros [|y b]; cbn; split; try easy.
  - intros H. apply andb_prop in H as [Hx Hab].
    apply String.eqb_eq in Hx. apply IH in Hab. now subst.
  - intros [= -> ->]. rewrite String.eqb_refl. now apply IH.
Qed.

Lemma catalog_keys_sorted :
  sorted (keys METRICS) =
  ["memory.free"; "memory.total"; "memory.used"; "temperature.gpu";
   "utilization.gpu"; "utilization.memory"]%string.
Proof. reflexivity. Qed.

Lemma catalog_keys_NoDup : NoDup (sorted (keys METRICS)).
Proof.
  rewrite catalog_keys_sorted.
  repeat (constructor; [cbn; intuition discriminate|]). constructor.
Qed.

(** The keys a line's dictionary gets: as many leading catalog keys as the
    line has value fields. *)
Lemma zip_floats_keys ks : forall fields d d',
  NoDup ks ->
  (forall k, In k ks -> dict_get String.eqb d k = None) ->
  zip_floats ks fields d = Return d' ->
  keys d' = keys d ++ firstn (List.length fields) ks.
Proof.
  induction ks as [|k ks IH]; intros fields d d' Hnd Hfresh H.
  - cbn in H. injection H as <-. rewrite firstn_nil. now rewrite app_nil_r.
  - destruct fields as [|f fields].
    + cbn in H. injection H as <-. cbn. now rewrite app_nil_r.
    + cbn [zip_floats] in H. destruct (py_float f) as [x| |]; try discriminate.
      cbn [obind] in H. inversion Hnd as [|? ? Hk Hnd']; subst.
      rewrite (dict_set_fresh String.eqb) in H by (apply Hfresh; now left).
      apply IH in H; [| assumption |].
      * rewrite H. unfold keys. rewrite map_app. cbn.
        now rewrite <- app_assoc.
      * intros k' Hk'. assert (k <> k') as N by (intros ->; contradiction).
        rewrite <- (dict_set_fresh String.eqb)
          by (apply Hfresh; now left).
        rewrite (dict_get_set_other String.eqb String.eqb_eq) by assumption.
        apply Hfresh. now right.
Qed.

Lemma line_dict_keys line d :
  line_dict line = Return d ->
  keys d = firstn (List.length (skipn 2 (split "," line))) (sorted (keys METRICS)).
Proof.
  intros H. unfold line_dict in H.
  apply zip_floats_keys in H; [exact H | apply catalog_keys_NoDup | reflexivity].
Qed.

(** An entry survives the rest of the loop unless a later line takes its key. *)
Lemma lines_loop_keeps lines : forall data data',
  lines_loop lines data = Return data' ->
  forall k d0, dict_get tuple_eqb data k = Some d0 ->
  dict_get tuple_eqb data' k = Some d0
  \/ exists line d, In line lines /\ line_key line = k
       /\ line_dict line = Return d /\ dict_get tuple_eqb data' k = Some d.
Proof.
  induction lines as [|line lines IH]; intros data data' H k d0 Hk.
  - cbn in H. injection H as <-. now left.
  - cbn [lines_loop] in H. fold (line_dict line) in H.
    destruct (line_dict line) as [d1| |] eqn:Hd; try discriminate.
    cbn [obind] in H. fold (line_key line) in H.
    destruct (list_eq_dec string_dec (line_key line) k) as [E|N].
    + destruct (IH _ _ H k d1) as [Hsame|(l' & d & Hin & Hkey & Hdict & Hget)].
      * rewrite <- E. apply (dict_get_set_same tuple_eqb tuple_eqb_eq).
      * right. exists line, d1. repeat split; auto. now left.
      * right. exists l', d. repeat split; auto. now right.
    + destruct (IH _ _ H k d0) as [Hsame|(l' & d & Hin & Hkey & Hdict & Hget)].
      * now rewrite (dict_get_set_other tuple_eqb tuple_eqb_eq).
      * now left.
      * right. exists l', d. repeat split; auto. now right.
Qed.

(** Every line leaves an entry under its key: its own dictionary, or that
    of a later line with the same key. *)
Lemma lines_loop_entries lines : forall data data',
  lines_loop lines data = Return data' ->
  forall line, In line lines ->
  exists line' d, In line' lines /\ line_key line' = line_key line
    /\ line_dict line' = Return d
    /\ dict_get tuple_eqb data' (line_key line) = Some d.
Proof.
  induction lines as [|l0 lines IH]; intros data data' H line Hin; [easy|].
  cbn [lines_loop] in H. fold (line_dict l0) in H.
  destruct (line_dict l0) as [d1| |] eqn:Hd; try discriminate.
  cbn [obind] in H. fold (line_key l0) in H.
  destruct Hin as [->|Hin].
  - destruct (lines_loop_keeps _ _ _ H (line_key line) d1)
      as [Hsame|(l' & d & Hin' & Hkey & Hdict & Hget)].
    + apply (dict_get_set_same tuple_eqb tuple_eqb_eq).
    + exists line, d1. repeat split; auto. now left.
    + exists l', d. repeat split; auto. now right.
  - destruct (IH _ _ H line Hin) as (l' & d & Hin' & Hkey & Hdict & Hget).
    exists l', d. repeat split; auto. now right.
Qed.

(** C2, as the code has it.  When every value field that [float] reaches
    is numeric, [get_metrics] returns and every output line, whatever its
    field count, has left an entry under its first two fields, whose keys
    are as many leading catalog keys as the line (or a later line with the
    same key) has value fields.  When some reached field is not numeric,
    [get_metrics] raises [ValueError]: the later lines are not parsed, and
    the exception leaves the loop of [main]. *)
Theorem C2_probe_lines_are_kept_or_parsing_raises (el rc : Z) (out err : string) :
  (forallb line_parses (splitlines out) = true ->
   exists data,
     get_metrics (Exits el rc out err) = ([Run query_argv], Return data)
     /\ forall line, In line (splitlines out) ->
        exists line' d,
          In line' (splitlines out) /\ line_key line' = line_key line
          /\ dict_get tuple_eqb data (line_key line) = Some d
          /\ keys d = firstn (List.length (skipn 2 (split "," line')))
                        (sorted (keys METRICS)))
  /\ (forallb line_parses (splitlines out) = false ->
      exists msg,
        get_metrics (Exits el rc out err) =
        ([Run query_argv], Raise (ValueError msg))
        /\ forall p z i c rest,
           smi_query c = Exits el rc out err ->
           main_loop p z i (c :: rest) =
           ([Run query_argv], Raise (ValueError msg))).
Proof.
  split; intros H; rewrite get_metrics_exits.
  - destruct (lines_loop_returns _ [] H) as [data Hdata].
    exists data. split; [now rewrite Hdata|].
    intros line Hin.
    destruct (lines_loop_entries _ _ _ Hdata line Hin)
      as (line' & d & Hin' & Hkey & Hdict & Hget).
    exists line', d. repeat split; auto. now apply line_dict_keys.
  - destruct (lines_loop_raises _ [] H) as [msg Hmsg].
    exists msg. split; [now rewrite Hmsg|].
    intros p z i c rest Hc. apply main_loop_probe_raises.
    now rewrite Hc, get_metrics_exits, Hmsg.
Qed.

(** Both halves at concrete outputs: a three-field line is kept with the
    one key it has a value for, and an unsupported column raises. *)
Lemma C2_probe_lines_witness :
  (exists data,
     get_metrics tool_with_short_line = ([Run query_argv], Return data)
     /\ forall line, In line (splitlines ("T4, 0000:00:05.0, 15109" ++ LF ++ sample_line ++ LF)) ->
        exists line' d,
          In line' (splitlines ("T4, 0000:00:05.0, 15109" ++ LF ++ sample_line ++ LF))
          /\ line_key line' = line_key line
          /\ dict_get tuple_eqb data (line_key line) = Some d
          /\ keys d = firstn (List.length (skipn 2 (split "," line')))
                        (sorted (keys METRICS)))
  /\ (exists msg,
        get_metrics tool_with_na = ([Run query_argv], Raise (ValueError msg))
        /\ forall p z i c rest,
           smi_query c = tool_with_na ->
           main_loop p z i (c :: rest) =
           ([Run query_argv], Raise (ValueError msg))).
Proof.
  split.
  - apply (C2_probe_lines_are_kept_or_parsing_raises 1 0
             ("T4, 0000:00:05.0, 15109" ++ LF ++ sample_line ++ LF) "").
    vm_compute. reflexivity.
  - apply (C2_probe_lines_are_kept_or_parsing_raises 1 0
             ("T4, 0000:00:05.0, [N/A], [N/A], [N/A], 41, 0, 0" ++ LF
              ++ sample_line ++ LF) "").
    vm_compute. reflexivity.
Defined.

(** C2 as stated fails twice: the short line is in the sample set, and the
    non-numeric line ends the parsing and the process. *)
Lemma C2_counterexample :
  get_metrics tool_with_short_line =
  ([Run query_argv],
   Return [ (["T4"; " 0000:00:05.0"], [("memory.free", 15109%float)]);
            (["A100"; " 0000:00:04.0"],
             [ ("memory.free", 30720%float); ("memory.total", 40960%float);
               ("memory.used", 10240%float); ("temperature.gpu", 60%float);
               ("utilization.gpu", 55%float);
               ("utilization.memory", 30%float) ]) ])
  /\ get_metrics tool_with_na =
     ([Run query_argv],
      Raise (ValueError "could not convert string to float: ' [N/A]'"))
  /\ main (world_with (cycle_probe tool_with_na)) =
     (startup_trace ++ [Run query_argv],
      Raise (ValueError "could not convert string to float: ' [N/A]'")).
Proof. split; [|split]; vm_compute; reflexivity. Qed.

(** C4, as the code has it: [get_metrics] passes no timeout to
    [subprocess.run].  How long the tool takes changes nothing, no run of
    [get_metrics] ends in [TimeoutExpired], and a tool that never exits
    leaves [get_metrics], and with it the loop, waiting for ever: no later
    cycle runs. *)
Theorem C4_probe_waits_without_timeout :
  (forall el el' rc out err,
      get_metrics (Exits el rc out err) = get_metrics (Exits el' rc out err))
  /\ (forall tool t, get_metrics tool <> (t, Raise TimeoutExpired))
  /\ get_metrics NeverExits = ([Run query_argv], Blocked)
  /\ (forall p z i c rest,
        smi_query c = NeverExits ->
        main_loop p z i (c :: rest) = ([Run query_argv], Blocked)).
Proof.
  split; [|split; [|split]].
  - intros. now rewrite !get_metrics_exits.
  - intros [| | |el rc out err|] t; try discriminate.
    rewrite get_metrics_exits.
    destruct (lines_loop_cases (splitlines out) []) as [[d ->]|[msg ->]];
      discriminate.
  - reflexivity.
  - intros p z i c rest H. apply main_loop_probe_blocked. now rewrite H.
Qed.

(** C4 as stated fails: with a tool that hangs in the first cycle the agent
    is blocked in the probe; nothing times out and the second cycle, whose
    tool is healthy, never starts. *)
Lemma C4_counterexample :
  main (world_with (cycle_probe NeverExits)) =
  (startup_trace ++ [Run query_argv], Blocked).
Proof. vm_compute. reflexivity. Qed.

(** ** Building the series *)

Lemma series_value_catalog metrics smi gcp :
  In (smi, gcp) METRICS -> series_value metrics smi gcp = getitem metrics smi.
Proof.
  intros H. cbn in H.
  repeat (destruct H as [[= <- <-]|H]; [reflexivity|]). easy.
Qed.

Lemma series_value_derived metrics :
  series_value metrics "" MEM_USED_PERCENT =
  (used <- getitem metrics "memory.used" ;;
   total <- getitem metrics "memory.total" ;;
   ratio <- truediv used total ;;
   percent <- py_round (ratio * float_of_int 100)%float ;;
   Return (float_of_int percent)).
Proof. reflexivity. Qed.

Lemma series_value_not_blocked metrics smi gcp :
  series_value metrics smi gcp <> Blocked.
Proof.
  unfold series_value, getitem, truediv, py_round.
  destruct (gcp =? MEM_USED_PERCENT)%string.
  - destruct (dict_get _ metrics "memory.used"); [|discriminate].
    destruct (dict_get _ metrics "memory.total") as [total|]; [|discriminate].
    cbn. destruct (PrimFloat.eqb total 0); [discriminate|]. cbn.
    destruct (Prim2SF _); discriminate.
  - destruct (dict_get _ metrics smi); discriminate.
Qed.

Lemma timestamp_cases seconds nanos :
  (in_int64 seconds && in_int32 nanos = true
   /\ timestamp seconds nanos = Return (seconds, nanos))
  \/ (in_int64 seconds && in_int32 nanos = false
      /\ exists msg, timestamp seconds nanos = Raise (ValueError msg)).
Proof.
  unfold timestamp. destruct (in_int64 seconds); cbn [negb andb].
  - destruct (in_int32 nanos); cbn [negb]; [left|right]; eauto.
  - right. eauto.
Qed.

Lemma template_returns now p z i seconds nanos :
  py_int now = Return seconds ->
  py_int ((now - float_of_int seconds) * float_of_int (10 ^ 9))%float = Return nanos ->
  timestamp seconds nanos = Return (seconds, nanos) ->
  time_series_template now z i p =
  Return {| resource_type := "gce_instance";
            resource_labels := host_labels p z i;
            metric_type := ""; metric_labels := [];
            points := [ {| end_time_seconds := seconds; end_time_nanos := nanos;
                           double_value := 0%float |} ] |}.
Proof.
  intros Hs Hn Ht. unfold time_series_template. rewrite Hs. cbn [obind].
  rewrite Hn. cbn [obind]. rewrite Ht. reflexivity.
Qed.

(** The inner loop appends the series of the device's values. *)
Lemma device_loop_spec seconds nanos p z i g b metrics pairs : forall series,
  device_loop
    {| resource_type := "gce_instance";
       resource_labels := host_labels p z i;
       metric_type := ""; metric_labels := [];
       points := [ {| end_time_seconds := seconds; end_time_nanos := nanos;
                      double_value := 0%float |} ] |}
    g b metrics pairs series =
  (vs <- device_values metrics pairs ;;
   Return (series ++ map (fun pv => series_of seconds nanos p z i g b
                                      (snd (fst pv)) (snd pv))
                         (combine pairs vs))).
Proof.
  induction pairs as [|[smi gcp] pairs IH]; intros series.
  - cbn. now rewrite app_nil_r.
  - cbn [device_loop device_values].
    destruct (series_value metrics smi gcp) as [v| |]; try reflexivity.
    cbn [obind set_double_value points]. rewrite IH.
    destruct (device_values metrics pairs) as [vs| |]; try reflexivity.
    cbn. now rewrite <- app_assoc.
Qed.

Lemma values_loop_spec seconds nanos p z i items : forall series,
  values_loop
    {| resource_type := "gce_instance";
       resource_labels := host_labels p z i;
       metric_type := ""; metric_labels := [];
       points := [ {| end_time_seconds := seconds; end_time_nanos := nanos;
                      double_value := 0%float |} ] |}
    items series =
  (r <- all_series seconds nanos p z i items ;; Return (series ++ r)).
Proof.
  induction items as [|[key metrics] items IH]; intros series.
  - cbn. now rewrite app_nil_r.
  - cbn [values_loop all_series]. unfold entry_series. cbn [fst snd].
    destruct key as [|g [|b [|]]]; try reflexivity.
    rewrite device_loop_spec.
    destruct (device_values metrics metric_pairs) as [vs| |]; try reflexivity.
    cbn [obind]. rewrite IH.
    destruct (all_series seconds nanos p z i items) as [r| |]; try reflexivity.
    cbn. now rewrite app_assoc.
Qed.

(** [build_series] is: split the clock, then the series of every entry. *)
Lemma build_series_spec now values p z i :
  build_series now values p z i =
  (seconds <- py_int now ;;
   nanos <- py_int ((now - float_of_int seconds) * float_of_int (10 ^ 9))%float ;;
   _ <- timestamp seconds nanos ;;
   all_series seconds nanos p z i values).
Proof.
  unfold build_series.
  destruct (py_int now) as [seconds| |] eqn:Hs;
    [|unfold time_series_template; rewrite Hs; reflexivity..].
  cbn [obind].
  destruct (py_int ((now - float_of_int seconds) * float_of_int (10 ^ 9))%float)
    as [nanos| |] eqn:Hn;
    [|unfold time_series_template; rewrite Hs; cbn [obind]; rewrite Hn;
      reflexivity..].
  cbn [obind].
  destruct (timestamp_cases seconds nanos) as [[_ Ht]|[_ [msg Ht]]].
  - rewrite (template_returns _ p z i _ _ Hs Hn Ht), Ht. cbn [obind].
    rewrite values_loop_spec.
    destruct (all_series seconds nanos p z i values); reflexivity.
  - unfold time_series_template. rewrite Hs. cbn [obind]. rewrite Hn.
    cbn [obind]. rewrite Ht. reflexivity.
Qed.

Lemma timestamp_not_blocked seconds nanos : timestamp seconds nanos <> Blocked.
Proof.
  destruct (timestamp_cases seconds nanos) as [[_ ->]|[_ [msg ->]]];
    discriminate.
Qed.

Lemma py_int_not_blocked x : py_int x <> Blocked.
Proof. unfold py_int. destruct (Prim2SF x); discriminate. Qed.

Lemma py_round_finite x : finite x = true -> exists n, py_round x = Return n.
Proof. unfold finite, py_round. destruct (Prim2SF x); eauto; discriminate. Qed.

Lemma py_round_not_finite x : finite x = false -> exists e, py_round x = Raise e.
Proof. unfold finite, py_round. destruct (Prim2SF x); eauto; discriminate. Qed.

Lemma py_int_finite x : finite x = true -> exists n, py_int x = Return n.
Proof. unfold finite, py_int. destruct (Prim2SF x); eauto; discriminate. Qed.

Lemma device_values_not_blocked metrics pairs :
  device_values metrics pairs <> Blocked.
Proof.
  induction pairs as [|[smi gcp] pairs IH]; cbn; [discriminate|].
  pose proof (series_value_not_blocked metrics smi gcp).
  destruct (series_value metrics smi gcp); cbn; try easy.
  destruct (device_values metrics pairs); cbn; easy.
Qed.

(** What the values of a device are when all of them are there. *)
Lemma device_values_returned metrics pairs : forall vs,
  device_values metrics pairs = Return vs ->
  List.length vs = List.length pairs
  /\ forall smi gcp v, In (smi, gcp, v) (combine pairs vs) ->
       series_value metrics smi gcp = Return v.
Proof.
  induction pairs as [|[smi gcp] pairs IH]; intros vs H; cbn in H.
  - injection H as <-. split; [reflexivity|easy].
  - destruct (series_value metrics smi gcp) as [v| |] eqn:Hv; try discriminate.
    cbn in H.
    destruct (device_values metrics pairs) as [vs'| |]; try discriminate.
    injection H as <-. destruct (IH vs' eq_refl) as [Hlen Hin].
    split; [cbn; now rewrite Hlen|].
    intros smi' gcp' v' [[= <- <- <-]|H']; [assumption|now apply Hin].
Qed.

Lemma device_values_covers metrics pairs : forall vs,
  device_values metrics pairs = Return vs ->
  forall smi gcp, In (smi, gcp) pairs ->
  exists v, series_value metrics smi gcp = Return v
            /\ In (smi, gcp, v) (combine pairs vs).
Proof.
  induction pairs as [|[smi gcp] pairs IH]; intros vs H smi' gcp' Hin;
    [easy|].
  cbn in H.
  destruct (series_value metrics smi gcp) as [v| |] eqn:Hv; try discriminate.
  cbn in H.
  destruct (device_values metrics pairs) as [vs'| |]; try discriminate.
  injection H as <-. destruct Hin as [[= <- <-]|Hin].
  - exists v. split; [assumption|now left].
  - destruct (IH vs' eq_refl _ _ Hin) as (v' & Hv' & Hin').
    exists v'. split; [assumption|now right].
Qed.

Lemma device_values_returns metrics pairs :
  (forall smi gcp, In (smi, gcp) pairs ->
     exists v, series_value metrics smi gcp = Return v) ->
  exists vs, device_values metrics pairs = Return vs.
Proof.
  induction pairs as [|[smi gcp] pairs IH]; intros H; cbn; [eauto|].
  destruct (H smi gcp (or_introl eq_refl)) as [v ->]. cbn.
  destruct IH as [vs ->]; [|cbn; eauto].
  intros smi' gcp' Hin. apply H. now right.
Qed.

Lemma device_values_raises metrics pairs smi gcp e :
  In (smi, gcp) pairs ->
  series_value metrics smi gcp = Raise e ->
  exists e', device_values metrics pairs = Raise e'.
Proof.
  intros Hin He.
  destruct (device_values metrics pairs) as [vs| |] eqn:H; [|eauto|].
  - destruct (device_values_covers _ _ _ H _ _ Hin) as (v & Hv & _).
    congruence.
  - now destruct (device_values_not_blocked metrics pairs).
Qed.

Lemma has_key_getitem metrics k :
  has_key metrics k = true -> exists v, getitem metrics k = Return v.
Proof.
  unfold has_key, getitem. destruct (dict_get _ metrics k); eauto; discriminate.
Qed.

Lemma missing_key_getitem metrics k :
  has_key metrics k = false -> getitem metrics k = Raise (KeyError k).
Proof.
  unfold has_key, getitem. destruct (dict_get _ metrics k); easy.
Qed.

Lemma In_catalog_key smi gcp : In (smi, gcp) METRICS -> In smi (keys METRICS).
Proof. intros H. apply (in_map fst) in H. exact H. Qed.

(** A well-formed entry yields its seven values. *)
Lemma well_formed_entry_returns seconds nanos p z i entry :
  well_formed_entry entry = true ->
  exists s, entry_series seconds nanos p z i entry = Return s.
Proof.
  unfold well_formed_entry, entry_series.
  destruct entry as [key metrics]. cbn [fst snd].
  destruct key as [|g [|b [|]]]; try discriminate.
  intros H. apply andb_prop in H as [Hc Hp].
  destruct (device_values_returns metrics metric_pairs) as [vs ->];
    [|cbn; eauto].
  intros smi gcp Hin. unfold metric_pairs in Hin.
  apply in_app_or in Hin as [Hin|[[= <- <-]|[]]].
  - rewrite (series_value_catalog _ _ _ Hin). apply has_key_getitem.
    unfold complete in Hc. rewrite forallb_forall in Hc.
    apply Hc. now apply In_catalog_key with (gcp := gcp).
  - rewrite series_value_derived. unfold percent_defined in Hp.
    unfold getitem, truediv.
    destruct (dict_get _ metrics "memory.used") as [used|]; [|discriminate].
    destruct (dict_get _ metrics "memory.total") as [total|]; [|discriminate].
    apply andb_prop in Hp as [Hz Hf]. apply negb_true_iff in Hz.
    cbn [obind]. rewrite Hz. cbn [obind].
    destruct (py_round_finite _ Hf) as [n ->]. cbn. eauto.
Qed.

(** An entry that is not well formed makes the construction raise. *)
Lemma ill_formed_entry_raises seconds nanos p z i entry :
  well_formed_entry entry = false ->
  exists e, entry_series seconds nanos p z i entry = Raise e.
Proof.
  unfold well_formed_entry, entry_series.
  destruct entry as [key metrics]. cbn [fst snd].
  destruct key as [|g [|b [|]]]; eauto.
  intros H.
  assert (exists e', device_values metrics metric_pairs = Raise e')
    as [e' ->]; [|cbn; eauto].
  apply andb_false_iff in H as [Hc|Hp].
  - unfold complete in Hc.
    assert (exists k, In k (keys METRICS) /\ has_key metrics k = false)
      as (k & Hk & Hmiss).
    { clear -Hc. induction (keys METRICS) as [|k l IH]; [discriminate|].
      cbn in Hc. apply andb_false_iff in Hc as [Hc|Hc].
      - exists k. split; [now left|assumption].
      - destruct (IH Hc) as (k' & ? & ?). exists k'. split; [now right|easy]. }
    unfold keys in Hk. apply in_map_iff in Hk as ([smi gcp] & <- & Hin).
    apply device_values_raises with (smi := smi) (gcp := gcp)
                                    (e := KeyError smi).
    + unfold metric_pairs. apply in_or_app. now left.
    + rewrite (series_value_catalog _ _ _ Hin).
      now apply missing_key_getitem.
  - assert (exists e, series_value metrics "" MEM_USED_PERCENT = Raise e)
      as [e He].
    { rewrite series_value_derived. unfold percent_defined in Hp.
      unfold getitem, truediv.
      destruct (dict_get _ metrics "memory.used") as [used|]; [|cbn; eauto].
      destruct (dict_get _ metrics "memory.total") as [total|]; [|cbn; eauto].
      cbn [obind].
      destruct (PrimFloat.eqb total 0); [cbn; eauto|]. cbn [obind].
      cbn [negb andb] in Hp.
      destruct (py_round_not_finite _ Hp) as [e ->]. cbn. eauto. }
    apply device_values_raises with (smi := ""%string) (gcp := MEM_USED_PERCENT)
                                    (e := e); [|assumption].
    unfold metric_pairs. apply in_or_app. right. now left.
Qed.

Lemma all_series_returns seconds nanos p z i items :
  forallb well_formed_entry items = true ->
  exists r, all_series seconds nanos p z i items = Return r.
Proof.
  induction items as [|entry items IH]; intros H; cbn [all_series]; [eauto|].
  cbn [forallb] in H. apply andb_prop in H as [He Hrest].
  destruct (well_formed_entry_returns seconds nanos p z i _ He) as [s ->].
  destruct (IH Hrest) as [r ->]. cbn. eauto.
Qed.

Lemma all_series_not_blocked seconds nanos p z i items :
  all_series seconds nanos p z i items <> Blocked.
Proof.
  induction items as [|[key metrics] items IH]; cbn [all_series];
    [discriminate|].
  unfold entry_series. cbn [fst snd].
  destruct key as [|g [|b [|]]]; try discriminate.
  pose proof (device_values_not_blocked metrics metric_pairs).
  destruct (device_values metrics metric_pairs); cbn [obind]; try easy.
  destruct (all_series seconds nanos p z i items); cbn; easy.
Qed.

Lemma all_series_raises seconds nanos p z i items entry :
  In entry items ->
  well_formed_entry entry = false ->
  exists e, all_series seconds nanos p z i items = Raise e.
Proof.
  induction items as [|entry' items IH]; intros Hin Hbad; [easy|].
  cbn [all_series].
  destruct (entry_series seconds nanos p z i entry') as [s| |] eqn:Hs;
    cbn [obind]; [|eauto|].
  - destruct Hin as [->|Hin].
    + destruct (ill_formed_entry_raises seconds nanos p z i _ Hbad) as [e He].
      congruence.
    + destruct (IH Hin Hbad) as [e ->]. cbn. eauto.
  - destruct entry' as [key metrics]. unfold entry_series in Hs.
    cbn [fst snd] in Hs. destruct key as [|g [|b [|]]]; try discriminate.
    pose proof (device_values_not_blocked metrics metric_pairs).
    destruct (device_values metrics metric_pairs); cbn in Hs; easy.
Qed.

Lemma build_series_not_blocked now values p z i :
  build_series now values p z i <> Blocked.
Proof.
  rewrite build_series_spec.
  pose proof (py_int_not_blocked now).
  destruct (py_int now) as [seconds| |]; cbn [obind]; try easy.
  pose proof (py_int_not_blocked
                ((now - float_of_int seconds) * float_of_int (10 ^ 9))%float).
  destruct (py_int _) as [nanos| |]; cbn [obind]; try easy.
  destruct (timestamp_cases seconds nanos) as [[_ ->]|[_ [msg ->]]];
    cbn [obind]; [|discriminate].
  apply all_series_not_blocked.
Qed.

(** One ill-formed entry anywhere in the sample set and nothing is built. *)
Lemma build_series_raises now values p z i entry :
  In entry values ->
  well_formed_entry entry = false ->
  exists e, build_series now values p z i = Raise e.
Proof.
  intros Hin Hbad. rewrite build_series_spec.
  pose proof (py_int_not_blocked now).
  destruct (py_int now) as [seconds| |]; cbn [obind]; try easy; [|eauto].
  pose proof (py_int_not_blocked
                ((now - float_of_int seconds) * float_of_int (10 ^ 9))%float).
  destruct (py_int _) as [nanos| |]; cbn [obind]; try easy; [|eauto].
  destruct (timestamp_cases seconds nanos) as [[_ ->]|[_ [msg ->]]];
    cbn [obind]; [|eauto].
  now apply all_series_raises with (entry := entry).
Qed.

Lemma build_series_returns now values p z i :
  clock_ok now = true ->
  forallb well_formed_entry values = true ->
  exists seconds nanos series,
    py_int now = Return seconds
    /\ py_int ((now - float_of_int seconds) * float_of_int (10 ^ 9))%float
       = Return nanos
    /\ all_series seconds nanos p z i values = Return series
    /\ build_series now values p z i = Return series.
Proof.
  intros Hc Hv. rewrite build_series_spec. unfold clock_ok in Hc.
  destruct (py_int now) as [seconds| |]; try discriminate.
  cbn [obind].
  destruct (py_int ((now - float_of_int seconds) * float_of_int (10 ^ 9))%float)
    as [nanos| |] eqn:Hn; try discriminate.
  destruct (all_series_returns seconds nanos p z i _ Hv) as [series Hs].
  exists seconds, nanos, series. cbn [obind].
  destruct (timestamp_cases seconds nanos) as [[_ ->]|[Hf _]]; [|congruence].
  cbn [obind]. rewrite Hs. auto.
Qed.

(** ** What a cycle publishes *)

Lemma report_metrics_cases now reply values p z i :
  (exists e, build_series now values p z i = Raise e
             /\ report_metrics now reply values p z i = ([], Raise e))
  \/ (exists series tl r,
        build_series now values p z i = Return series
        /\ report_metrics now reply values p z i =
           (CreateTimeSeries ("projects/" ++ p)%string series :: tl, r)
        /\ forallb is_print tl = true).
Proof.
  destruct (build_series now values p z i) as [series|e|] eqn:Hb.
  - right. exists series. destruct reply as [e|].
    + destruct (is_Exception e) eqn:He.
      * rewrite (report_metrics_caught _ _ _ _ _ _ _ Hb He). now eauto.
      * rewrite (report_metrics_uncaught _ _ _ _ _ _ _ Hb He). now eauto.
    + rewrite (report_metrics_accepted _ _ _ _ _ _ Hb). now eauto.
  - left. exists e. split; [reflexivity|].
    now apply report_metrics_build_raises.
  - now destruct (build_series_not_blocked now values p z i).
Qed.

Lemma entry_series_sound seconds nanos p z i key metrics s :
  entry_series seconds nanos p z i (key, metrics) = Return s ->
  exists g b vs,
    key = [g; b]
    /\ device_values metrics metric_pairs = Return vs
    /\ s = map (fun pv => series_of seconds nanos p z i g b (snd (fst pv)) (snd pv))
               (combine metric_pairs vs).
Proof.
  unfold entry_series. cbn [fst snd].
  destruct key as [|g [|b [|]]]; try discriminate.
  destruct (device_values metrics metric_pairs) as [vs| |]; try discriminate.
  cbn. intros [= <-]. exists g, b, vs. auto.
Qed.


(** Every series of the batch is a value of some entry. *)
Lemma all_series_sound seconds nanos p z i items : forall r,
  all_series seconds nanos p z i items = Return r ->
  forall ts, In ts r ->
  exists key metrics g b smi gcp v,
    In (key, metrics) items /\ key = [g; b] /\ In (smi, gcp) metric_pairs
    /\ series_value metrics smi gcp = Return v
    /\ ts = series_of seconds nanos p z i g b gcp v.
Proof.
  induction items as [|[key' metrics'] items IH]; intros r H ts Hin.
  - cbn in H. injection H as <-. easy.
  - cbn [all_series] in H.
    destruct (entry_series seconds nanos p z i (key', metrics')) as [s| |] eqn:Hs;
      try discriminate.
    cbn [obind] in H.
    destruct (all_series seconds nanos p z i items) as [r'| |]; try discriminate.
    injection H as <-. apply in_app_or in Hin as [Hin|Hin].
    + destruct (entry_series_sound _ _ _ _ _ _ _ _ Hs) as (g & b & vs & -> & Hv & ->).
      apply in_map_iff in Hin as ([[smi gcp] v] & <- & Hin).
      destruct (device_values_returned _ _ _ Hv) as [_ Hall].
      exists [g; b], metrics', g, b, smi, gcp, v. repeat split; auto.
      * now left.
      * apply in_combine_l in Hin. exact Hin.
    + destruct (IH r' eq_refl ts Hin)
        as (key & metrics & g & b & smi & gcp & v & H1 & H2 & H3 & H4 & H5).
      exists key, metrics, g, b, smi, gcp, v. repeat split; auto. now right.
Qed.

(** One series per (device, metric) pair, in order, all stamped alike. *)
Lemma all_series_shape seconds nanos p z i items : forall r,
  all_series seconds nanos p z i items = Return r ->
  map (fun ts => (metric_labels ts, metric_type ts)) r = published_pairs items
  /\ Forall (stamped seconds nanos p z i) r.
Proof.
  induction items as [|[key metrics] items IH]; intros r H.
  - cbn in H. injection H as <-. split; [reflexivity|constructor].
  - cbn [all_series] in H.
    destruct (entry_series seconds nanos p z i (key, metrics)) as [s| |] eqn:Hs;
      try discriminate.
    cbn [obind] in H.
    destruct (all_series seconds nanos p z i items) as [r'| |]; try discriminate.
    injection H as <-. destruct (IH r' eq_refl) as [Hmap Hall].
    destruct (entry_series_sound _ _ _ _ _ _ _ _ Hs) as (g & b & vs & -> & Hv & ->).
    destruct (device_values_returned _ _ _ Hv) as [Hlen _].
    split.
    + rewrite map_app, Hmap. unfold published_pairs. cbn [flat_map fst].
      f_equal. rewrite map_map. cbn [metric_labels metric_type series_of].
      clear -Hlen. revert vs Hlen.
      induction metric_pairs as [|pr l IHl]; intros [|v vs] Hlen;
        try discriminate; [reflexivity|].
      cbn. f_equal. apply IHl. now injection Hlen.
    + apply Forall_app. split; [|assumption].
      apply Forall_forall. intros ts Hin.
      apply in_map_iff in Hin as (pv & <- & _). now repeat split.
Qed.

Lemma published_pairs_length values :
  List.length (published_pairs values) = (7 * List.length values)%nat.
Proof.
  unfold published_pairs. induction values as [|entry values IH];
    [reflexivity|].
  cbn [flat_map]. rewrite length_app, IH, length_map. cbn. lia.
Qed.

Lemma main_loop_publish_caught p z i c rest t values series e :
  get_metrics (smi_query c) = (t, Return values) ->
  build_series (clock c) values p z i = Return series ->
  backend c = Some e ->
  is_Exception e = true ->
  main_loop p z i (c :: rest) =
  (t ++ [CreateTimeSeries ("projects/" ++ p)%string series;
         Print "Encountered an error:"; Print (str_exn e);
         Sleep FREQUENCY] ++ fst (main_loop p z i rest),
   snd (main_loop p z i rest)).
Proof.
  intros Hg Hb Hr He.
  rewrite (main_loop_next_cycle p z i c rest t values
             [CreateTimeSeries ("projects/" ++ p)%string series;
              Print "Encountered an error:"; Print (str_exn e)] Hg).
  - reflexivity.
  - rewrite Hr. now apply report_metrics_caught.
Qed.

Lemma main_loop_build_raises p z i c rest t values e :
  get_metrics (smi_query c) = (t, Return values) ->
  build_series (clock c) values p z i = Raise e ->
  main_loop p z i (c :: rest) = (t, Raise e).
Proof.
  intros Hg Hb.
  rewrite (main_loop_report_raises p z i c rest t values [] e Hg).
  - now rewrite app_nil_r.
  - now apply report_metrics_build_raises.
Qed.

Lemma bad_entry_not_well_formed key metrics :
  complete metrics = false \/ total_is_zero metrics = true ->
  well_formed_entry (key, metrics) = false.
Proof.
  intros H. unfold well_formed_entry. cbn [fst snd].
  destruct key as [|g [|b [|]]]; try reflexivity.
  destruct H as [H|H]; [now rewrite H|].
  apply andb_false_iff. right.
  unfold total_is_zero in H. unfold percent_defined.
  destruct (dict_get _ metrics "memory.used"); [|reflexivity].
  destruct (dict_get _ metrics "memory.total"); [|discriminate].
  now rewrite H.
Qed.

(** * The claims *)

(** C1, as the code has it: when some device of the sample set has
    [memory.total] equal to zero or lacks a catalog key, [report_metrics]
    raises while it builds the series.  Nothing is submitted in that cycle,
    for that device or any other, and the exception leaves the loop. *)
Theorem C1_zero_total_or_missing_key_aborts_the_batch
    (now : float) (reply : option exn) (values : MetricsData)
    (p z i : string) (key : list string) (metrics : list (string * float)) :
  In (key, metrics) values ->
  complete metrics = false \/ total_is_zero metrics = true ->
  exists e,
    report_metrics now reply values p z i = ([], Raise e)
    /\ forall c rest t,
         get_metrics (smi_query c) = (t, Return values) ->
         clock c = now -> backend c = reply ->
         main_loop p z i (c :: rest) = (t, Raise e).
Proof.
  intros Hin Hbad.
  destruct (build_series_raises now values p z i _ Hin
              (bad_entry_not_well_formed key metrics Hbad)) as [e He].
  exists e. split; [now apply report_metrics_build_raises|].
  intros c rest t Hg <- <-. now apply main_loop_build_raises with (values := values).
Qed.

(** The healthy A100 beside a card that reports no memory at all. *)
Lemma C1_aborts_the_batch_witness :
  exists e,
    report_metrics (clock sample_cycle) None values_zero_total
      sample_project sample_zone sample_instance = ([], Raise e)
    /\ forall c rest t,
         get_metrics (smi_query c) = (t, Return values_zero_total) ->
         clock c = clock sample_cycle -> backend c = None ->
         main_loop sample_project sample_zone sample_instance (c :: rest)
         = (t, Raise e).
Proof.
  apply (C1_zero_total_or_missing_key_aborts_the_batch
           (clock sample_cycle) None values_zero_total
           sample_project sample_zone sample_instance
           ["T4"; "0000:00:05.0"]%string
           [ ("memory.free", 0%float); ("memory.total", 0%float);
             ("memory.used", 0%float); ("temperature.gpu", 41%float);
             ("utilization.gpu", 0%float); ("utilization.memory", 0%float) ]%string).
  - right. left. reflexivity.
  - right. reflexivity.
Defined.

(** C1 as stated fails: with the healthy A100 first in the sample set, a
    second card with [memory.total = 0] or without its keys makes
    [report_metrics] raise before any submission; in [main] the exception
    ends the process. *)
Lemma C1_counterexample :
  report_metrics (clock sample_cycle) None values_zero_total
    sample_project sample_zone sample_instance = ([], Raise ZeroDivisionError)
  /\ report_metrics (clock sample_cycle) None values_missing_key
       sample_project sample_zone sample_instance
     = ([], Raise (KeyError "utilization.gpu"))
  /\ main (world_with (cycle_probe tool_with_zero_total)) =
     (startup_trace ++ [Run query_argv], Raise ZeroDivisionError).
Proof. split; [|split]; vm_compute; reflexivity. Qed.

(** C3, as the code has it: [main] has no handler in its loop.  An
    exception raised by [get_metrics], or by [report_metrics] while it
    builds the series, ends [main] in that cycle and no later cycle runs;
    only an [Exception] raised by the submission call is caught (inside
    [report_metrics]), and the loop then goes on to the next cycle. *)
Theorem C3_only_submission_failures_are_isolated
    (p z i : string) (c : cycle_world) (rest : list cycle_world) :
  (forall t e,
      get_metrics (smi_query c) = (t, Raise e) ->
      main_loop p z i (c :: rest) = (t, Raise e))
  /\ (forall t values e,
        get_metrics (smi_query c) = (t, Return values) ->
        build_series (clock c) values p z i = Raise e ->
        main_loop p z i (c :: rest) = (t, Raise e))
  /\ (forall t values series e,
        get_metrics (smi_query c) = (t, Return values) ->
        build_series (clock c) values p z i = Return series ->
        backend c = Some e ->
        is_Exception e = true ->
        main_loop p z i (c :: rest) =
        (t ++ [CreateTimeSeries ("projects/" ++ p)%string series;
               Print "Encountered an error:"; Print (str_exn e);
               Sleep FREQUENCY] ++ fst (main_loop p z i rest),
         snd (main_loop p z i rest))).
Proof.
  split; [|split].
  - intros t e H. now apply main_loop_probe_raises.
  - intros t values e Hg Hb. now apply main_loop_build_raises with (values := values).
  - intros t values series e Hg Hb Hr He.
    now apply main_loop_publish_caught with (values := values).
Qed.

(** The three cases at concrete cycles. *)
Lemma C3_only_submission_failures_witness :
  main_loop sample_project sample_zone sample_instance
    [cycle_probe NotFound; sample_cycle]
  = ([Run query_argv], Raise FileNotFoundError)
  /\ main_loop sample_project sample_zone sample_instance
       [cycle_probe tool_with_zero_total; sample_cycle]
     = ([Run query_argv], Raise ZeroDivisionError)
  /\ main_loop sample_project sample_zone sample_instance
       [refused_cycle; sample_cycle]
     = ([Run query_argv] ++
        [CreateTimeSeries ("projects/" ++ sample_project)%string sample_series;
         Print "Encountered an error:";
         Print (str_exn (ApiError "503 Service Unavailable"));
         Sleep FREQUENCY]
        ++ fst (main_loop sample_project sample_zone sample_instance [sample_cycle]),
        snd (main_loop sample_project sample_zone sample_instance [sample_cycle])).
Proof.
  split; [|split].
  - apply (C3_only_submission_failures_are_isolated
             sample_project sample_zone sample_instance
             (cycle_probe NotFound) [sample_cycle]).
    reflexivity.
  - apply (proj1 (proj2 (C3_only_submission_failures_are_isolated
             sample_project sample_zone sample_instance
             (cycle_probe tool_with_zero_total) [sample_cycle])))
      with (values := sample_parsed ++
              [ (["T4"; " 0000:00:05.0"]%string,
                 [ ("memory.free", 0%float); ("memory.total", 0%float);
                   ("memory.used", 0%float); ("temperature.gpu", 41%float);
                   ("utilization.gpu", 0%float);
                   ("utilization.memory", 0%float) ]%string) ]);
      vm_compute; reflexivity.
  - apply (proj2 (proj2 (C3_only_submission_failures_are_isolated
             sample_project sample_zone sample_instance
             refused_cycle [sample_cycle])))
      with (values := sample_parsed); vm_compute; reflexivity.
Defined.

(** C3 as stated fails: a probe that cannot be started, or a card with
    [memory.total = 0], in the first cycle ends the process; the second
    cycle, which would succeed, never runs. *)
Lemma C3_counterexample :
  main (world_with (cycle_probe NotFound)) =
  (startup_trace ++ [Run query_argv], Raise FileNotFoundError)
  /\ main (world_with (cycle_probe tool_with_zero_total)) =
     (startup_trace ++ [Run query_argv], Raise ZeroDivisionError)
  /\ snd (main (world_with sample_cycle)) = Return tt.
Proof. split; [|split]; vm_compute; reflexivity. Qed.

(** C8: when the submission raises an [Exception] (a network error, a
    rejection by the backend), [report_metrics] prints two lines to standard
    error and returns; the cycle holds that one submission and no second
    attempt, [main] sleeps and runs the next cycle as it would have. *)
Theorem C8_publish_failure_is_logged_and_the_loop_goes_on
    (p z i : string) (c : cycle_world) (rest : list cycle_world)
    (t : list event) (values : MetricsData) (series : list TimeSeries)
    (e : exn) :
  get_metrics (smi_query c) = (t, Return values) ->
  build_series (clock c) values p z i = Return series ->
  backend c = Some e ->
  is_Exception e = true ->
  report_metrics (clock c) (backend c) values p z i =
  ([CreateTimeSeries ("projects/" ++ p)%string series;
    Print "Encountered an error:"; Print (str_exn e)],
   Return tt)
  /\ main_loop p z i (c :: rest) =
     (t ++ [CreateTimeSeries ("projects/" ++ p)%string series;
            Print "Encountered an error:"; Print (str_exn e);
            Sleep FREQUENCY] ++ fst (main_loop p z i rest),
      snd (main_loop p z i rest)).
Proof.
  intros Hg Hb Hr He. split.
  - rewrite Hr. now apply report_metrics_caught.
  - now apply main_loop_publish_caught with (values := values).
Qed.

(** A refused submission followed by a healthy cycle. *)
Lemma C8_publish_failure_witness :
  report_metrics (clock refused_cycle) (backend refused_cycle) sample_parsed
    sample_project sample_zone sample_instance =
  ([CreateTimeSeries ("projects/" ++ sample_project)%string sample_series;
    Print "Encountered an error:";
    Print (str_exn (ApiError "503 Service Unavailable"))],
   Return tt)
  /\ main_loop sample_project sample_zone sample_instance
       [refused_cycle; sample_cycle] =
     ([Run query_argv] ++
      [CreateTimeSeries ("projects/" ++ sample_project)%string sample_series;
       Print "Encountered an error:";
       Print (str_exn (ApiError "503 Service Unavailable"));
       Sleep FREQUENCY]
      ++ fst (main_loop sample_project sample_zone sample_instance [sample_cycle]),
      snd (main_loop sample_project sample_zone sample_instance [sample_cycle])).
Proof.
  apply (C8_publish_failure_is_logged_and_the_loop_goes_on
           sample_project sample_zone sample_instance
           refused_cycle [sample_cycle] [Run query_argv] sample_parsed
           sample_series (ApiError "503 Service Unavailable"));
    vm_compute; reflexivity.
Defined.

(** C9: a missing key is never replaced by a default.  Either every entry
    of the sample set has all catalog keys, or [report_metrics] raises and
    submits nothing; and every series that is submitted carries the value
    the entry of its device holds for its metric (for the derived metric,
    the rounded percentage of the two memory values it holds). *)
Theorem C9_no_value_is_defaulted
    (now : float) (reply : option exn) (values : MetricsData) (p z i : string) :
  (forallb (fun entry => complete (snd entry)) values = true
   \/ exists e, report_metrics now reply values p z i = ([], Raise e))
  /\ (forall name series ts,
        In (CreateTimeSeries name series)
           (fst (report_metrics now reply values p z i)) ->
        In ts series ->
        exists key metrics g b smi gcp v seconds nanos,
          In (key, metrics) values /\ key = [g; b]
          /\ ts = series_of seconds nanos p z i g b gcp v
          /\ ((In (smi, gcp) METRICS
               /\ dict_get String.eqb metrics smi = Some v)
              \/ (gcp = MEM_USED_PERCENT
                  /\ exists used total n,
                       dict_get String.eqb metrics "memory.used" = Some used
                       /\ dict_get String.eqb metrics "memory.total" = Some total
                       /\ py_round (used / total * float_of_int 100)%float = Return n
                       /\ v = float_of_int n))).
Proof.
  split.
  - destruct (forallb (fun entry => complete (snd entry)) values) eqn:Hc;
      [now left|right].
    assert (exists entry, In entry values /\ complete (snd entry) = false)
      as ([key metrics] & Hin & Hbad).
    { clear -Hc. induction values as [|entry values IH]; [discriminate|].
      cbn in Hc. apply andb_false_iff in Hc as [Hc|Hc].
      - exists entry. split; [now left|assumption].
      - destruct (IH Hc) as (entry' & ? & ?).
        exists entry'. split; [now right|assumption]. }
    destruct (build_series_raises now values p z i _ Hin
                (bad_entry_not_well_formed key metrics (or_introl Hbad)))
      as [e He].
    exists e. now apply report_metrics_build_raises.
  - intros name series ts Hev Hts.
    destruct (report_metrics_cases now reply values p z i)
      as [(e & _ & Hr)|(series' & tl & r & Hb & Hr & Htl)];
      rewrite Hr in Hev; cbn [fst] in Hev; [easy|].
    destruct Hev as [[= <- <-]|Hev].
    2:{ rewrite forallb_forall in Htl. apply Htl in Hev. discriminate. }
    rewrite build_series_spec in Hb.
    destruct (py_int now) as [seconds| |]; try discriminate.
    cbn [obind] in Hb.
    destruct (py_int _) as [nanos| |]; try discriminate.
    cbn [obind] in Hb.
    destruct (timestamp seconds nanos); try discriminate.
    cbn [obind] in Hb.
    destruct (all_series_sound _ _ _ _ _ _ _ Hb ts Hts)
      as (key & metrics & g & b & smi & gcp & v & Hin & -> & Hpair & Hv & ->).
    exists [g; b], metrics, g, b, smi, gcp, v, seconds, nanos.
    split; [assumption|]. split; [reflexivity|]. split; [reflexivity|].
    unfold metric_pairs in Hpair.
    apply in_app_or in Hpair as [Hpair|[[= <- <-]|[]]].
    + left. split; [assumption|].
      rewrite (series_value_catalog _ _ _ Hpair) in Hv.
      unfold getitem in Hv.
      destruct (dict_get String.eqb metrics smi); congruence.
    + right. split; [reflexivity|].
      rewrite series_value_derived in Hv. unfold getitem, truediv in Hv.
      destruct (dict_get _ metrics "memory.used") as [used|]; try discriminate.
      destruct (dict_get _ metrics "memory.total") as [total|];
        try discriminate.
      cbn [obind] in Hv.
      destruct (PrimFloat.eqb total 0); try discriminate.
      cbn [obind] in Hv.
      destruct (py_round _) as [n| |] eqn:Hn; try discriminate.
      cbn [obind] in Hv. injection Hv as <-.
      exists used, total, n. auto.
Qed.

(** Both sides of C9: the sample set with a card that lacks its keys, and
    the utilisation series of the sample cycle. *)
Lemma C9_no_value_is_defaulted_witness :
  (exists e,
     report_metrics (clock sample_cycle) None values_missing_key
       sample_project sample_zone sample_instance = ([], Raise e))
  /\ forallb (fun entry => complete (snd entry)) sample_values = true.
Proof.
  split.
  - destruct (proj1 (C9_no_value_is_defaulted (clock sample_cycle) None
                       values_missing_key sample_project sample_zone
                       sample_instance)) as [H|H].
    + vm_compute in H. discriminate.
    + exact H.
  - destruct (proj1 (C9_no_value_is_defaulted (clock sample_cycle) None
                       sample_values sample_project sample_zone
                       sample_instance)) as [H|[e H]].
    + exact H.
    + vm_compute in H. discriminate.
Defined.


(** A well-formed sample set under a finite clock is submitted. *)
Lemma report_metrics_submits now reply values p z i :
  clock_ok now = true ->
  forallb well_formed_entry values = true ->
  exists seconds nanos series tl r,
    py_int now = Return seconds
    /\ py_int ((now - float_of_int seconds) * float_of_int (10 ^ 9))%float
       = Return nanos
    /\ all_series seconds nanos p z i values = Return series
    /\ report_metrics now reply values p z i =
       (CreateTimeSeries ("projects/" ++ p)%string series :: tl, r)
    /\ forallb is_print tl = true.
Proof.
  intros Hc Hv.
  destruct (build_series_returns now values p z i Hc Hv)
    as (seconds & nanos & series & Hs & Hn & Hall & Hb).
  destruct (report_metrics_cases now reply values p z i)
    as [(e & Hb' & _)|(series' & tl & r & Hb' & Hr & Htl)]; [congruence|].
  assert (series' = series) as -> by congruence.
  exists seconds, nanos, series, tl, r. auto.
Qed.

(** What is known of a batch that was submitted. *)
Lemma submitted_batch now reply values p z i name series :
  In (CreateTimeSeries name series) (fst (report_metrics now reply values p z i)) ->
  exists seconds nanos tl,
    name = ("projects/" ++ p)%string
    /\ py_int now = Return seconds
    /\ py_int ((now - float_of_int seconds) * float_of_int (10 ^ 9))%float
       = Return nanos
    /\ all_series seconds nanos p z i values = Return series
    /\ fst (report_metrics now reply values p z i) =
       CreateTimeSeries name series :: tl
    /\ forallb is_print tl = true.
Proof.
  intros Hev.
  destruct (report_metrics_cases now reply values p z i)
    as [(e & _ & Hr)|(series' & tl & r & Hb & Hr & Htl)];
    rewrite Hr in *; cbn [fst] in *; [easy|].
  destruct Hev as [[= <- <-]|Hev].
  2:{ rewrite forallb_forall in Htl. apply Htl in Hev. discriminate. }
  rewrite build_series_spec in Hb.
  destruct (py_int now) as [seconds| |]; try discriminate.
  cbn [obind] in Hb.
  destruct (py_int _) as [nanos| |] eqn:Hn; try discriminate.
  cbn [obind] in Hb.
  destruct (timestamp seconds nanos); try discriminate.
  cbn [obind] in Hb.
  exists seconds, nanos, tl. auto 10.
Qed.

Lemma well_formed_is_submitted now reply values p z i :
  clock_ok now = true ->
  forallb well_formed_entry values = true ->
  exists series,
    In (CreateTimeSeries ("projects/" ++ p)%string series)
       (fst (report_metrics now reply values p z i)).
Proof.
  intros Hc Hv.
  destruct (report_metrics_submits now reply values p z i Hc Hv)
    as (seconds & nanos & series & tl & r & _ & _ & _ & Hr & _).
  exists series. rewrite Hr. now left.
Qed.



Lemma clock_not_ok_raises now values p z i :
  clock_ok now = false ->
  exists e, build_series now values p z i = Raise e.
Proof.
  intros Hc. rewrite build_series_spec. unfold clock_ok in Hc.
  pose proof (py_int_not_blocked now).
  destruct (py_int now) as [seconds|e|]; cbn [obind]; [|eauto|easy].
  pose proof (py_int_not_blocked
                ((now - float_of_int seconds) * float_of_int (10 ^ 9))%float).
  destruct (py_int ((now - float_of_int seconds) * float_of_int (10 ^ 9))%float)
    as [nanos|e|]; cbn [obind]; [|eauto|easy].
  destruct (timestamp_cases seconds nanos) as [[Ht _]|[_ [msg ->]]];
    [congruence|]. cbn. eauto.
Qed.

Lemma ill_formed_values_raise now values p z i :
  forallb well_formed_entry values = false ->
  exists e, build_series now values p z i = Raise e.
Proof.
  intros Hv.
  assert (exists entry, In entry values /\ well_formed_entry entry = false)
    as (entry & Hin & Hbad).
  { clear -Hv. induction values as [|entry values IH]; [discriminate|].
    cbn in Hv. apply andb_false_iff in Hv as [Hv|Hv].
    - exists entry. split; [now left|assumption].
    - destruct (IH Hv) as (entry' & ? & ?).
      exists entry'. split; [now right|assumption]. }
  now apply build_series_raises with (entry := entry).
Qed.

(** C7, as the code has it.  In a cycle whose clock reading is finite and
    whose sample set is well formed (every entry has a key of two elements,
    every catalog key, a non-zero [memory.total] and a finite percentage),
    and in no other cycle, [report_metrics] makes a submission.  It is then
    the one submission of the cycle and holds exactly seven series per
    device (the six catalog metrics, then the derived one), in the order of
    the devices; each series has one point stamped [int(now)] seconds and
    [int((now - seconds) * 10 ** 9)] nanoseconds, the labels [instance_id],
    [zone] and [project_id] of the host on its resource, and [gpu_type] and
    [gpu_bus_id] of its device on its metric.  In any other cycle
    [report_metrics] raises and submits nothing.  For the sample of the
    design document at clock 1700000000.25 the stamp is 1700000000 seconds
    and 250000000 nanoseconds. *)
Theorem C7_one_batch_of_seven_series_per_device :
  (forall now reply values p z i name series,
      In (CreateTimeSeries name series)
         (fst (report_metrics now reply values p z i)) ->
      exists seconds nanos tl,
        name = ("projects/" ++ p)%string
        /\ py_int now = Return seconds
        /\ py_int ((now - float_of_int seconds) * float_of_int (10 ^ 9))%float
           = Return nanos
        /\ fst (report_metrics now reply values p z i) =
           CreateTimeSeries name series :: tl
        /\ forallb is_print tl = true
        /\ List.length series = (7 * List.length values)%nat
        /\ map (fun ts => (metric_labels ts, metric_type ts)) series
           = published_pairs values
        /\ Forall (stamped seconds nanos p z i) series)
  /\ (forall now reply values p z i,
        (exists name series,
           In (CreateTimeSeries name series)
              (fst (report_metrics now reply values p z i)))
        <-> clock_ok now = true /\ forallb well_formed_entry values = true)
  /\ (forall now reply values p z i,
        clock_ok now && forallb well_formed_entry values = false ->
        exists e, report_metrics now reply values p z i = ([], Raise e))
  /\ (exists series,
        report_metrics (clock sample_cycle) None sample_values
          sample_project sample_zone sample_instance =
        ([CreateTimeSeries "projects/123456" series], Return tt)
        /\ Forall (stamped 1700000000 250000000
                     sample_project sample_zone sample_instance) series
        /\ map (fun ts => (metric_labels ts, metric_type ts)) series =
           map (fun gcp =>
                  ([("gpu_type", "A100"); ("gpu_bus_id", "0000:00:04.0")],
                   ("custom.googleapis.com/instance/gpu/" ++ gcp)%string))
               ["utilization"; "memory_utilization"; "memory_total";
                "memory_used"; "memory_free"; "temperature";
                "memory_used_percent"]).
Proof.
  assert (forall now reply values p z i,
            clock_ok now && forallb well_formed_entry values = false ->
            exists e, report_metrics now reply values p z i = ([], Raise e))
    as Hraise.
  { intros now reply values p z i H.
    assert (exists e, build_series now values p z i = Raise e) as [e He].
    { apply andb_false_iff in H as [H|H].
      - now apply clock_not_ok_raises.
      - now apply ill_formed_values_raise. }
    exists e. now apply report_metrics_build_raises. }
  split; [|split; [|split]].
  - intros now reply values p z i name series Hev.
    destruct (submitted_batch _ _ _ _ _ _ _ _ Hev)
      as (seconds & nanos & tl & Hname & Hs & Hn & Hall & Hr & Htl).
    destruct (all_series_shape _ _ _ _ _ _ _ Hall) as [Hmap Hst].
    exists seconds, nanos, tl.
    repeat (split; [assumption|]). split; [|split; assumption].
    rewrite <- (length_map (fun ts => (metric_labels ts, metric_type ts))), Hmap.
    apply published_pairs_length.
  - intros now reply values p z i. split.
    + intros (name & series & Hev).
      destruct (clock_ok now && forallb well_formed_entry values) eqn:H.
      * now apply andb_prop in H.
      * destruct (Hraise now reply values p z i H) as [e He].
        rewrite He in Hev. destruct Hev.
    + intros [Hc Hv].
      destruct (well_formed_is_submitted now reply values p z i Hc Hv)
        as [series Hs].
      now exists ("projects/" ++ p)%string, series.
  - exact Hraise.
  - eexists. split; [vm_compute; reflexivity|]. split.
    + repeat (constructor; [now repeat split|]). constructor.
    + vm_compute. reflexivity.
Qed.

(** The batch of the sample of the design document, and of the same
    readings ten seconds and a half later. *)
Lemma C7_one_batch_witness :
  exists series series',
    fst (report_metrics (clock sample_cycle) None sample_values
           sample_project sample_zone sample_instance) =
    [CreateTimeSeries ("projects/" ++ sample_project)%string series]
    /\ List.length series = 7%nat
    /\ map (fun ts => (metric_labels ts, metric_type ts)) series
       = published_pairs sample_values
    /\ Forall (stamped 1700000000 250000000
                 sample_project sample_zone sample_instance) series
    /\ fst (report_metrics (clock later_cycle) None sample_values
              sample_project sample_zone sample_instance) =
       [CreateTimeSeries ("projects/" ++ sample_project)%string series']
    /\ Forall (stamped 1700000010 500000000
                 sample_project sample_zone sample_instance) series'.
Proof.
  destruct (proj2 (proj1 (proj2 C7_one_batch_of_seven_series_per_device)
                     (clock sample_cycle) None sample_values
                     sample_project sample_zone sample_instance))
    as (name & series & Hs); [split; vm_compute; reflexivity|].
  destruct (proj2 (proj1 (proj2 C7_one_batch_of_seven_series_per_device)
                     (clock later_cycle) None sample_values
                     sample_project sample_zone sample_instance))
    as (name' & series' & Hs'); [split; vm_compute; reflexivity|].
  destruct (proj1 C7_one_batch_of_seven_series_per_device _ _ _ _ _ _ _ _ Hs)
    as (seconds & nanos & tl & -> & Hsec & Hnan & Hfst & Htl & Hlen & Hmap & Hst).
  destruct (proj1 C7_one_batch_of_seven_series_per_device _ _ _ _ _ _ _ _ Hs')
    as (seconds' & nanos' & tl' & -> & Hsec' & Hnan' & Hfst' & Htl' & _ & _ & Hst').
  vm_compute in Hsec. injection Hsec as <-.
  vm_compute in Hnan. injection Hnan as <-.
  vm_compute in Hsec'. injection Hsec' as <-.
  vm_compute in Hnan'. injection Hnan' as <-.
  assert (tl = []) as ->.
  { rewrite Hfst in Hs. vm_compute in Hfst. now injection Hfst. }
  assert (tl' = []) as ->.
  { rewrite Hfst' in Hs'. vm_compute in Hfst'. now injection Hfst'. }
  exists series, series'. auto 10.
Defined.

(** C7 as stated fails: in a cycle whose probe shows two cards, the second
    with [memory.total = 0], no point is built and the backend is not
    called at all. *)
Lemma C7_counterexample :
  (exists data,
     get_metrics tool_with_zero_total = ([Run query_argv], Return data)
     /\ List.length data = 2%nat
     /\ fst (report_metrics (clock sample_cycle) None data
               sample_project sample_zone sample_instance) = [])
  /\ filter is_create
       (fst (main (world_with (cycle_probe tool_with_zero_total)))) = [].
Proof.
  split.
  - eexists. split; [vm_compute; reflexivity|].
    split; vm_compute; reflexivity.
  - vm_compute. reflexivity.
Qed.

(** * Further properties of the code *)

(** ** The preflight *)


(** ** The probe *)

(** X2: the query run is not checked: [get_metrics] parses what the tool
    printed on standard output whatever its exit status, its standard error
    and its running time, and never raises [CalledProcessError]. *)
Theorem X2_query_exit_status_is_ignored :
  (forall el el' rc rc' out err err',
      get_metrics (Exits el rc out err) = get_metrics (Exits el' rc' out err'))
  /\ (forall tool t rc out err,
        get_metrics tool <> (t, Raise (CalledProcessError rc out err))).
Proof.
  split.
  - intros. now rewrite !get_metrics_exits.
  - intros [| | |el rc' out' err'|] t rc out err; try discriminate.
    rewrite get_metrics_exits.
    destruct (lines_loop_cases (splitlines out') []) as [[d ->]|[msg ->]];
      discriminate.
Qed.

(** ** Identity *)

Lemma split_no_sep sep s : has_char sep s = false -> split sep s = [s].
Proof.
  induction s as [|c s IH]; cbn; [reflexivity|].
  intros H. apply orb_false_iff in H as [Hc Hs].
  rewrite Hc, (IH Hs). reflexivity.
Qed.

Lemma split_app_sep sep a b :
  has_char sep a = false ->
  split sep (a ++ String sep b) = a :: split sep b.
Proof.
  induction a as [|c a IH]; cbn.
  - intros _. now rewrite Ascii.eqb_refl.
  - intros H. apply orb_false_iff in H as [Hc Ha].
    rewrite Hc, (IH Ha). reflexivity.
Qed.

Lemma split_zone_path project_id zone :
  has_char "/" project_id = false ->
  has_char "/" zone = false ->
  split "/" (zone_path project_id zone) = ["projects"; project_id; "zones"; zone]%string.
Proof.
  intros Hp Hz. unfold zone_path.
  change ("projects/" ++ project_id ++ "/zones/" ++ zone)%string
    with ("projects" ++ String "/" (project_id ++ String "/"
            ("zones" ++ String "/" zone)))%string.
  rewrite split_app_sep by reflexivity.
  rewrite split_app_sep by assumption.
  rewrite split_app_sep by reflexivity.
  now rewrite split_no_sep.
Qed.

(** X3: when the metadata server answers the zone request with
    [projects/<project>/zones/<zone>] (no slash inside either name) and the
    id request with [<id>], [get_instance_params] makes those two requests,
    with the [Metadata-Flavor] header, and returns [(<project>, <zone>,
    <id>)]. *)
Theorem X3_get_instance_params_reads_the_zone_path
    (server : string -> http_behaviour) (project_id zone instance_id : string) :
  has_char "/" project_id = false ->
  has_char "/" zone = false ->
  server zone_url = Responds (zone_path project_id zone) ->
  server id_url = Responds instance_id ->
  get_instance_params server =
  ([Get zone_url [("Metadata-Flavor", "Google")];
    Get id_url [("Metadata-Flavor", "Google")]],
   Return (project_id, zone, instance_id)).
Proof.
  intros Hp Hz Hzone Hid.
  apply get_instance_params_ok with (data := zone_path project_id zone);
    try assumption; now rewrite split_zone_path.
Qed.

(** The metadata of the running examples. *)
Lemma X3_get_instance_params_witness :
  get_instance_params sample_metadata =
  ([Get zone_url [("Metadata-Flavor", "Google")];
    Get id_url [("Metadata-Flavor", "Google")]],
   Return ("123456", "europe-west3-c", "987")%string).
Proof.
  apply (X3_get_instance_params_reads_the_zone_path sample_metadata
           "123456" "europe-west3-c" "987"); reflexivity.
Defined.

(** ** The loop *)

(** X4: an exception that is not an [Exception] (a [KeyboardInterrupt]
    during the submission) is not swallowed by [report_metrics]: nothing is
    printed, and it ends [main] without the sleep and without a further
    cycle. *)
Theorem X4_interrupt_during_submission_ends_the_loop
    (p z i : string) (c : cycle_world) (rest : list cycle_world)
    (t : list event) (values : MetricsData) (series : list TimeSeries)
    (e : exn) :
  get_metrics (smi_query c) = (t, Return values) ->
  build_series (clock c) values p z i = Return series ->
  backend c = Some e ->
  is_Exception e = false ->
  report_metrics (clock c) (backend c) values p z i =
  ([CreateTimeSeries ("projects/" ++ p)%string series], Raise e)
  /\ main_loop p z i (c :: rest) =
     (t ++ [CreateTimeSeries ("projects/" ++ p)%string series], Raise e).
Proof.
  intros Hg Hb Hr He.
  assert (report_metrics (clock c) (backend c) values p z i =
          ([CreateTimeSeries ("projects/" ++ p)%string series], Raise e)) as H
    by (rewrite Hr; now apply report_metrics_uncaught).
  split; [exact H|].
  now apply main_loop_report_raises with (values := values).
Qed.

(** Ctrl-C while the sample batch is being sent. *)
Lemma X4_interrupt_witness :
  report_metrics (clock interrupted_cycle) (backend interrupted_cycle)
    sample_parsed sample_project sample_zone sample_instance =
  ([CreateTimeSeries ("projects/" ++ sample_project)%string sample_series],
   Raise KeyboardInterrupt)
  /\ main_loop sample_project sample_zone sample_instance
       [interrupted_cycle; sample_cycle] =
     ([Run query_argv] ++
      [CreateTimeSeries ("projects/" ++ sample_project)%string sample_series],
      Raise KeyboardInterrupt).
Proof.
  apply (X4_interrupt_during_submission_ends_the_loop
           sample_project sample_zone sample_instance
           interrupted_cycle [sample_cycle] [Run query_argv] sample_parsed
           sample_series KeyboardInterrupt);
    vm_compute; reflexivity.
Defined.

(** X5: a cycle in which the tool prints nothing is not skipped: the
    sample set is empty and [report_metrics] still calls
    [create_time_series], with an empty list of series; the loop then
    sleeps and goes on. *)
Theorem X5_empty_output_submits_an_empty_batch
    (p z i : string) (c : cycle_world) (rest : list cycle_world)
    (el rc : Z) (err : string) :
  smi_query c = Exits el rc "" err ->
  clock_ok (clock c) = true ->
  backend c = None ->
  get_metrics (smi_query c) = ([Run query_argv], Return [])
  /\ main_loop p z i (c :: rest) =
     ([Run query_argv; CreateTimeSeries ("projects/" ++ p)%string [];
       Sleep FREQUENCY] ++ fst (main_loop p z i rest),
      snd (main_loop p z i rest)).
Proof.
  intros Hq Hc Hb.
  assert (get_metrics (smi_query c) = ([Run query_argv], Return [])) as Hg
    by (rewrite Hq; apply get_metrics_exits).
  split; [exact Hg|].
  destruct (build_series_returns (clock c) [] p z i Hc eq_refl)
    as (seconds & nanos & series & _ & _ & Hall & Hbuild).
  cbn in Hall. injection Hall as <-.
  rewrite (main_loop_next_cycle p z i c rest _ _
             [CreateTimeSeries ("projects/" ++ p)%string []] Hg).
  - reflexivity.
  - rewrite Hb. now apply report_metrics_accepted.
Qed.

(** A silent cycle before the sample cycle. *)
Lemma X5_empty_output_witness :
  get_metrics (smi_query silent_cycle) = ([Run query_argv], Return [])
  /\ main_loop sample_project sample_zone sample_instance
       [silent_cycle; sample_cycle] =
     ([Run query_argv;
       CreateTimeSeries ("projects/" ++ sample_project)%string [];
       Sleep FREQUENCY]
      ++ fst (main_loop sample_project sample_zone sample_instance [sample_cycle]),
      snd (main_loop sample_project sample_zone sample_instance [sample_cycle])).
Proof.
  apply (X5_empty_output_submits_an_empty_batch
           sample_project sample_zone sample_instance
           silent_cycle [sample_cycle] 1 0 ""); vm_compute; reflexivity.
Defined.

(** ** The sample set *)

Section DictKeys.
Context {K V : Type} (eqb : K -> K -> bool).
Hypothesis eqb_eq : forall a b, eqb a b = true <-> a = b.

Lemma dict_get_None_iff (d : dict (V := V)) k :
  dict_get eqb d k = None <-> ~ In k (keys d).
Proof.
  induction d as [|[k' v'] d IH]; cbn; [tauto|].
  destruct (eqb k' k) eqn:E.
  - apply eqb_eq in E. split; [discriminate|]. intros N. destruct N. now left.
  - rewrite IH. split.
    + intros N [->|H]; [|tauto]. rewrite (eqb_same eqb eqb_eq) in E. discriminate.
    + tauto.
Qed.

Lemma dict_get_existsb (d : dict (V := V)) k :
  existsb (fun k' => eqb k' k) (keys d) =
  match dict_get eqb d k with Some _ => true | None => false end.
Proof.
  induction d as [|[k' v'] d IH]; cbn; [reflexivity|].
  destruct (eqb k' k); [reflexivity|exact IH].
Qed.

Lemma dict_set_keys (d : dict (V := V)) k v :
  keys (dict_set eqb d k v) =
  match dict_get eqb d k with
  | Some _ => keys d
  | None => keys d ++ [k]
  end.
Proof.
  unfold keys. induction d as [|[k' v'] d IH]; cbn; [reflexivity|].
  destruct (eqb k' k); cbn; [reflexivity|].
  rewrite IH. now destruct (dict_get eqb d k).
Qed.

Lemma dict_set_In (d : dict (V := V)) k v k' v' :
  In (k', v') (dict_set eqb d k v) -> In (k', v') d \/ (k' = k /\ v' = v).
Proof.
  induction d as [|[k0 v0] d IH]; cbn.
  - intros [[= <- <-]|[]]. now right.
  - destruct (eqb k0 k) eqn:E; cbn.
    + apply eqb_eq in E. subst k0. intros [[= <- <-]|H]; [now right|].
      left. now right.
    + intros [H|H]; [left; now left|].
      destruct (IH H) as [H'|H']; [left; now right|now right].
Qed.

Lemma dict_set_keys_NoDup (d : dict (V := V)) k v :
  NoDup (keys d) -> NoDup (keys (dict_set eqb d k v)).
Proof.
  intros H. rewrite dict_set_keys.
  destruct (dict_get eqb d k) eqn:E; [assumption|].
  apply dict_get_None_iff in E.
  apply NoDup_app; [assumption | repeat constructor; easy |].
  intros x Hx [<-|[]]. contradiction.
Qed.

Lemma dict_set_length (d : dict (V := V)) k v :
  (List.length (dict_set eqb d k v) <= S (List.length d))%nat.
Proof.
  induction d as [|[k' v'] d IH]; cbn; [lia|].
  destruct (eqb k' k); cbn; lia.
Qed.

Lemma keys_In_get (d : dict (V := V)) k :
  In k (keys d) -> exists v, dict_get eqb d k = Some v.
Proof.
  intros H. destruct (dict_get eqb d k) eqn:E; [eauto|].
  apply dict_get_None_iff in E. contradiction.
Qed.
End DictKeys.

Lemma lines_loop_step line lines data :
  lines_loop (line :: lines) data =
  (d <- line_dict line ;;
   lines_loop lines (dict_set tuple_eqb data (line_key line) d)).
Proof. reflexivity. Qed.

Lemma lines_loop_app l1 : forall l2 data,
  lines_loop (l1 ++ l2) data = (d1 <- lines_loop l1 data ;; lines_loop l2 d1).
Proof.
  induction l1 as [|line l1 IH]; intros l2 data; [reflexivity|].
  rewrite <- app_comm_cons, !lines_loop_step.
  destruct (line_dict line); cbn [obind]; [apply IH|reflexivity..].
Qed.

(** One entry per key, in the order in which the keys first appear. *)
Lemma lines_loop_keys lines : forall data data',
  lines_loop lines data = Return data' ->
  keys data' = keys data ++ first_occurrences (keys data) (map line_key lines).
Proof.
  induction lines as [|line lines IH]; intros data data' H.
  - cbn in H. injection H as <-. cbn. now rewrite app_nil_r.
  - rewrite lines_loop_step in H.
    destruct (line_dict line) as [d| |]; try discriminate.
    cbn [obind] in H. apply IH in H. rewrite H.
    rewrite (dict_set_keys tuple_eqb). cbn [map first_occurrences].
    rewrite (dict_get_existsb tuple_eqb).
    destruct (dict_get tuple_eqb data (line_key line)); [reflexivity|].
    now rewrite <- app_assoc.
Qed.

Lemma lines_loop_NoDup lines : forall data data',
  lines_loop lines data = Return data' ->
  NoDup (keys data) -> NoDup (keys data').
Proof.
  induction lines as [|line lines IH]; intros data data' H Hnd.
  - cbn in H. now injection H as <-.
  - rewrite lines_loop_step in H.
    destruct (line_dict line) as [d| |]; try discriminate.
    cbn [obind] in H. apply (IH _ _ H).
    now apply (dict_set_keys_NoDup tuple_eqb tuple_eqb_eq).
Qed.

Lemma lines_loop_length lines : forall data data',
  lines_loop lines data = Return data' ->
  (List.length data' <= List.length data + List.length lines)%nat.
Proof.
  induction lines as [|line lines IH]; intros data data' H.
  - cbn in H. injection H as <-. cbn. lia.
  - rewrite lines_loop_step in H.
    destruct (line_dict line) as [d| |]; try discriminate.
    cbn [obind] in H. apply IH in H.
    pose proof (dict_set_length tuple_eqb data (line_key line) d).
    cbn [List.length]. lia.
Qed.

(** Every entry is what was there before or the dictionary of a line. *)
Lemma lines_loop_sound lines : forall data data',
  lines_loop lines data = Return data' ->
  forall k d, In (k, d) data' ->
  In (k, d) data
  \/ exists line, In line lines /\ line_key line = k /\ line_dict line = Return d.
Proof.
  induction lines as [|line lines IH]; intros data data' H k d Hin.
  - cbn in H. injection H as <-. now left.
  - rewrite lines_loop_step in H.
    destruct (line_dict line) as [d1| |] eqn:Hd; try discriminate.
    cbn [obind] in H.
    destruct (IH _ _ H k d Hin) as [Hin'|(l & Hl & Hk & Hdict)].
    + apply (dict_set_In tuple_eqb tuple_eqb_eq) in Hin' as [Hin'|[-> ->]].
      * now left.
      * right. exists line. repeat split; auto. now left.
    + right. exists l. repeat split; auto. now right.
Qed.

(** X6: the sample set [get_metrics] returns has one entry per distinct
    [(name, bus id)] key of the output: its keys are without repetition,
    they are the keys of the output lines in the order in which they first
    appear, and there are at most as many entries as lines. *)
Theorem X6_one_entry_per_key
    (el rc : Z) (out err : string) (t : list event) (data : MetricsData) :
  get_metrics (Exits el rc out err) = (t, Return data) ->
  NoDup (keys data)
  /\ keys data = first_occurrences [] (map line_key (splitlines out))
  /\ (forall k, In k (keys data) <->
                exists line, In line (splitlines out) /\ line_key line = k)
  /\ (List.length data <= List.length (splitlines out))%nat.
Proof.
  rewrite get_metrics_exits. intros [= _ H].
  split; [|split; [|split]].
  - apply (lines_loop_NoDup _ _ _ H). constructor.
  - now rewrite (lines_loop_keys _ _ _ H).
  - intros k. split.
    + intros Hk. apply (keys_In_get tuple_eqb tuple_eqb_eq) in Hk as [d Hd].
      apply (dict_get_In tuple_eqb tuple_eqb_eq) in Hd.
      destruct (lines_loop_sound _ _ _ H k d Hd) as [[]|(l & Hl & Hkey & _)].
      now exists l.
    + intros (line & Hl & <-).
      destruct (lines_loop_entries _ _ _ H line Hl) as (l' & d & _ & _ & _ & Hget).
      apply (dict_get_In tuple_eqb tuple_eqb_eq) in Hget.
      apply (in_map fst) in Hget. exact Hget.
  - apply (lines_loop_length _ _ _ H).
Qed.

(** Three lines, two cards. *)
Lemma X6_one_entry_per_key_witness :
  exists data,
    get_metrics tool_with_repeated_card = ([Run query_argv], Return data)
    /\ keys data = [["A100"; " 0000:00:04.0"]; ["T4"; " 0000:00:05.0"]]%string
    /\ NoDup (keys data)
    /\ (List.length data <= 3)%nat.
Proof.
  eexists. split; [vm_compute; reflexivity|].
  destruct (X6_one_entry_per_key 1 0
              (sample_line ++ LF ++ "T4, 0000:00:05.0, 15109, 15109, 0, 41, 0, 0" ++ LF
               ++ "A100, 0000:00:04.0, 20480, 40960, 20480, 61, 90, 50" ++ LF) ""
              [Run query_argv] _ eq_refl) as (Hnd & Hk & _ & Hlen).
  split; [exact Hk|]. split; [exact Hnd|exact Hlen].
Defined.

(** X7: when the tool prints several lines with the same key, the values
    of the last of them are the ones of the entry. *)
Theorem X7_last_line_of_a_key_wins
    (el rc : Z) (out err : string) (t : list event) (data : MetricsData)
    (before after : list string) (line : string) :
  get_metrics (Exits el rc out err) = (t, Return data) ->
  splitlines out = before ++ line :: after ->
  (forall l, In l after -> line_key l <> line_key line) ->
  exists d,
    line_dict line = Return d
    /\ dict_get tuple_eqb data (line_key line) = Some d.
Proof.
  rewrite get_metrics_exits. intros [= _ H] Hsplit Hafter.
  rewrite Hsplit, lines_loop_app in H.
  destruct (lines_loop before []) as [d1| |]; try discriminate.
  cbn [obind] in H. rewrite lines_loop_step in H.
  destruct (line_dict line) as [d| |]; try discriminate.
  cbn [obind] in H. exists d. split; [reflexivity|].
  destruct (lines_loop_keeps _ _ _ H (line_key line) d)
    as [Hsame|(l & d' & Hl & Hkey & _)].
  - apply (dict_get_set_same tuple_eqb tuple_eqb_eq).
  - exact Hsame.
  - now destruct (Hafter l Hl).
Qed.

(** The A100 printed twice: the later readings are kept. *)
Lemma X7_last_line_witness :
  exists data d,
    get_metrics tool_with_repeated_card = ([Run query_argv], Return data)
    /\ line_dict "A100, 0000:00:04.0, 20480, 40960, 20480, 61, 90, 50" = Return d
    /\ dict_get tuple_eqb data ["A100"; " 0000:00:04.0"]%string = Some d.
Proof.
  eexists.
  destruct (X7_last_line_of_a_key_wins 1 0
              (sample_line ++ LF ++ "T4, 0000:00:05.0, 15109, 15109, 0, 41, 0, 0" ++ LF
               ++ "A100, 0000:00:04.0, 20480, 40960, 20480, 61, 90, 50" ++ LF) ""
              [Run query_argv] _
              [sample_line; "T4, 0000:00:05.0, 15109, 15109, 0, 41, 0, 0"%string] []
              "A100, 0000:00:04.0, 20480, 40960, 20480, 61, 90, 50"
              eq_refl eq_refl) as (d & Hd & Hget).
  { intros l []. }
  exists d. split; [vm_compute; reflexivity|]. split; [exact Hd|exact Hget].
Defined.

Lemma catalog_key_in_sorted k :
  In k (keys METRICS) -> In k (sorted (keys METRICS)).
Proof. rewrite catalog_keys_sorted. cbn. intuition. Qed.

Lemma complete_of_keys d :
  keys d = sorted (keys METRICS) -> complete d = true.
Proof.
  intros Hk. unfold complete. apply forallb_forall. intros k Hin.
  apply catalog_key_in_sorted in Hin. rewrite <- Hk in Hin.
  apply (keys_In_get String.eqb String.eqb_eq) in Hin as [v Hv].
  unfold has_key. now rewrite Hv.
Qed.

(** X8: when every output line has at least eight fields and
    [get_metrics] returns, every entry of the sample set is keyed by a pair
    and has a value for exactly the catalog keys: [report_metrics] will
    find every key it looks up. *)
Theorem X8_full_lines_give_complete_entries
    (el rc : Z) (out err : string) (t : list event) (data : MetricsData) :
  (forall line, In line (splitlines out) ->
                (8 <= List.length (split "," line))%nat) ->
  get_metrics (Exits el rc out err) = (t, Return data) ->
  forall key d, In (key, d) data ->
  exists g b,
    key = [g; b]
    /\ keys d = sorted (keys METRICS)
    /\ complete d = true.
Proof.
  intros Hlen. rewrite get_metrics_exits. intros [= _ H] key d Hin.
  destruct (lines_loop_sound _ _ _ H key d Hin) as [[]|(line & Hl & Hk & Hd)].
  specialize (Hlen line Hl). apply line_dict_keys in Hd.
  unfold line_key in Hk.
  destruct (split "," line) as [|g [|b fields]]; cbn in Hlen; try lia.
  cbn [firstn] in Hk. cbn [skipn] in Hd.
  rewrite firstn_all2 in Hd by (rewrite catalog_keys_sorted; cbn; lia).
  exists g, b. split; [now rewrite <- Hk|]. split; [exact Hd|].
  now apply complete_of_keys.
Qed.

(** The sample line has eight fields. *)
Lemma X8_full_lines_witness :
  Forall (fun entry =>
            exists g b,
              fst entry = [g; b]
              /\ keys (snd entry) = sorted (keys METRICS)
              /\ complete (snd entry) = true)
         sample_parsed.
Proof.
  apply Forall_forall. intros [key d] Hin. cbn [fst snd].
  apply (X8_full_lines_give_complete_entries 1 0 (sample_line ++ LF) ""
           [Run query_argv] sample_parsed).
  - intros line [<-|[]]. vm_compute. lia.
  - vm_compute. reflexivity.
  - exact Hin.
Defined.

(** X9: a line without a comma (a blank line, a banner) is filed under a
    key of one element.  [report_metrics] cannot unpack that key: it raises
    on the sample set and submits nothing, and the cycle ends [main]. *)
Theorem X9_line_without_comma_ends_the_cycle
    (el rc : Z) (out err : string) (t : list event) (data : MetricsData)
    (line : string) (now : float) (reply : option exn) (p z i : string) :
  In line (splitlines out) ->
  has_char "," line = false ->
  get_metrics (Exits el rc out err) = (t, Return data) ->
  In [line] (keys data)
  /\ exists e,
       report_metrics now reply data p z i = ([], Raise e)
       /\ forall c rest,
            smi_query c = Exits el rc out err ->
            clock c = now -> backend c = reply ->
            main_loop p z i (c :: rest) = ([Run query_argv], Raise e).
Proof.
  intros Hl Hc Hg. pose proof Hg as Hg'.
  rewrite get_metrics_exits in Hg'. injection Hg' as <- H.
  destruct (lines_loop_entries _ _ _ H line Hl) as (l' & d & _ & _ & _ & Hget).
  unfold line_key in Hget. rewrite (split_no_sep _ _ Hc) in Hget.
  cbn [firstn] in Hget.
  apply (dict_get_In tuple_eqb tuple_eqb_eq) in Hget.
  split; [apply (in_map fst) in Hget; exact Hget|].
  destruct (build_series_raises now data p z i _ Hget eq_refl) as [e He].
  exists e. split; [now apply report_metrics_build_raises|].
  intros c rest Hq <- <-.
  apply main_loop_build_raises with (values := data); [now rewrite Hq|exact He].
Qed.

(** A blank line after the sample line. *)
Lemma X9_line_without_comma_witness :
  exists data,
    get_metrics tool_with_blank_line = ([Run query_argv], Return data)
    /\ In [""%string] (keys data)
    /\ exists e,
         report_metrics (clock sample_cycle) None data
           sample_project sample_zone sample_instance = ([], Raise e)
         /\ forall c rest,
              smi_query c = tool_with_blank_line ->
              clock c = clock sample_cycle -> backend c = None ->
              main_loop sample_project sample_zone sample_instance (c :: rest)
              = ([Run query_argv], Raise e).
Proof.
  eexists. split; [vm_compute; reflexivity|].
  apply (X9_line_without_comma_ends_the_cycle 1 0 (sample_line ++ LF ++ LF) ""
           [Run query_argv] _ "" (clock sample_cycle) None
           sample_project sample_zone sample_instance).
  - vm_compute. tauto.
  - reflexivity.
  - vm_compute. reflexivity.
Defined.

(** ** When a batch is built *)

Lemma py_int_raises x e : py_int x = Raise e -> build_error e = true.
Proof.
  unfold py_int. destruct (Prim2SF x); intros [= <-]; reflexivity.
Qed.

Lemma py_int_not_finite x : finite x = false -> exists e, py_int x = Raise e.
Proof. unfold finite, py_int. destruct (Prim2SF x); eauto; discriminate. Qed.

Lemma series_value_raises metrics smi gcp e :
  series_value metrics smi gcp = Raise e -> build_error e = true.
Proof.
  unfold series_value, getitem, truediv, py_round.
  destruct (gcp =? MEM_USED_PERCENT)%string.
  - destruct (dict_get _ metrics "memory.used"); [|now intros [= <-]].
    destruct (dict_get _ metrics "memory.total") as [total|];
      [|now intros [= <-]].
    cbn [obind]. destruct (PrimFloat.eqb total 0); [now intros [= <-]|].
    cbn [obind]. destruct (Prim2SF _); cbn; intros [= <-]; reflexivity.
  - destruct (dict_get _ metrics smi); [discriminate|now intros [= <-]].
Qed.

Lemma device_values_error metrics pairs e :
  device_values metrics pairs = Raise e -> build_error e = true.
Proof.
  induction pairs as [|[smi gcp] pairs IH]; cbn; [discriminate|].
  destruct (series_value metrics smi gcp) as [v|e'|] eqn:Hv; cbn.
  - destruct (device_values metrics pairs); cbn; try discriminate.
    intros [= <-]. now apply IH.
  - intros [= <-]. now apply series_value_raises in Hv.
  - discriminate.
Qed.

Lemma all_series_error seconds nanos p z i items e :
  all_series seconds nanos p z i items = Raise e -> build_error e = true.
Proof.
  induction items as [|[key metrics] items IH]; cbn [all_series];
    [discriminate|].
  unfold entry_series. cbn [fst snd].
  destruct key as [|g [|b [|]]]; cbn [obind unpack_error];
    try (intros [= <-]; reflexivity).
  destruct (device_values metrics metric_pairs) as [vs|e'|] eqn:Hv;
     cbn [obind].
  - destruct (all_series seconds nanos p z i items); cbn; try discriminate.
    intros [= <-]. now apply IH.
  - intros [= <-]. now apply device_values_error in Hv.
  - discriminate.
Qed.

Lemma build_series_error now values p z i e :
  build_series now values p z i = Raise e -> build_error e = true.
Proof.
  rewrite build_series_spec.
  destruct (py_int now) as [seconds|e'|] eqn:Hs; cbn [obind].
  - destruct (py_int ((now - float_of_int seconds) * float_of_int (10 ^ 9))%float)
      as [nanos|e'|] eqn:Hn; cbn [obind].
    + destruct (timestamp_cases seconds nanos) as [[_ ->]|[_ [msg ->]]];
        cbn [obind]; [|now intros [= <-]].
      apply all_series_error.
    + intros [= <-]. now apply py_int_raises in Hn.
    + discriminate.
  - intros [= <-]. now apply py_int_raises in Hs.
  - discriminate.
Qed.

Lemma forallb_false_In {A} (f : A -> bool) l :
  forallb f l = false -> exists x, In x l /\ f x = false.
Proof.
  induction l as [|a l IH]; cbn; [discriminate|].
  intros H. apply andb_false_iff in H as [H|H].
  - exists a. split; [now left|assumption].
  - destruct (IH H) as (x & Hx & Hf). exists x. split; [now right|assumption].
Qed.

(** X10: [report_metrics] reaches the submission exactly when the clock
    reading splits into seconds and nanoseconds and every entry of the
    sample set has a key of two elements, every catalog key, a non-zero
    [memory.total] and a percentage that is a finite number.  Otherwise it
    raises before any effect, and what it raises is a [KeyError], a
    [ZeroDivisionError], a [ValueError] or an [OverflowError]. *)
Theorem X10_report_metrics_submits_exactly_when_well_formed
    (now : float) (reply : option exn) (values : MetricsData) (p z i : string) :
  if clock_ok now && forallb well_formed_entry values
  then exists series tl r,
         report_metrics now reply values p z i =
         (CreateTimeSeries ("projects/" ++ p)%string series :: tl, r)
  else exists e,
         report_metrics now reply values p z i = ([], Raise e)
         /\ build_error e = true.
Proof.
  destruct (clock_ok now) eqn:Hc; cbn [andb].
  - destruct (forallb well_formed_entry values) eqn:Hv.
    + destruct (report_metrics_submits now reply values p z i Hc Hv)
        as (_ & _ & series & tl & r & _ & _ & _ & Hr & _).
      now exists series, tl, r.
    + apply forallb_false_In in Hv as (entry & Hin & Hbad).
      destruct (build_series_raises now values p z i _ Hin Hbad) as [e He].
      exists e. split; [now apply report_metrics_build_raises|].
      now apply build_series_error in He.
  - assert (exists e, build_series now values p z i = Raise e) as [e He].
    { rewrite build_series_spec. unfold clock_ok in Hc.
      pose proof (py_int_not_blocked now).
      destruct (py_int now) as [seconds|e|]; cbn [obind]; [|eauto|easy].
      pose proof (py_int_not_blocked
                    ((now - float_of_int seconds) * float_of_int (10 ^ 9))%float).
      destruct (py_int ((now - float_of_int seconds) * float_of_int (10 ^ 9))%float)
        as [nanos|e|]; cbn [obind]; [|eauto|easy].
      destruct (timestamp_cases seconds nanos) as [[Ht _]|[_ [msg ->]]];
        [congruence|]. cbn. eauto. }
    exists e. split; [now apply report_metrics_build_raises|].
    now apply build_series_error in He.
Qed.

(** ** Consecutive cycles *)

Lemma all_series_unstamped seconds nanos seconds' nanos' p z i items : forall r,
  all_series seconds nanos p z i items = Return r ->
  exists r',
    all_series seconds' nanos' p z i items = Return r'
    /\ map unstamped r = map unstamped r'.
Proof.
  induction items as [|[key metrics] items IH]; intros r H.
  - cbn in H. injection H as <-. now exists [].
  - cbn [all_series] in *. unfold entry_series in *. cbn [fst snd] in *.
    destruct key as [|g [|b [|]]]; try discriminate.
    destruct (device_values metrics metric_pairs) as [vs| |]; try discriminate.
    cbn [obind] in *.
    destruct (all_series seconds nanos p z i items) as [r0| |];
      try discriminate.
    destruct (IH r0 eq_refl) as (r0' & -> & Hr0).
    cbn [obind] in *. injection H as <-. eexists. split; [reflexivity|].
    rewrite !map_app, Hr0, !map_map. reflexivity.
Qed.

(** X11: the clock touches nothing but the time stamps: two calls of
    [report_metrics] on the same sample set for the same host, whatever
    their clocks and the backend's answers, submit under the same name
    batches that are equal series by series once the stamps are left out. *)
Theorem X11_same_samples_same_batch_up_to_the_stamp
    (now now' : float) (reply reply' : option exn) (values : MetricsData)
    (p z i name name' : string) (series series' : list TimeSeries) :
  In (CreateTimeSeries name series)
     (fst (report_metrics now reply values p z i)) ->
  In (CreateTimeSeries name' series')
     (fst (report_metrics now' reply' values p z i)) ->
  name = name' /\ map unstamped series = map unstamped series'.
Proof.
  intros H H'.
  destruct (submitted_batch _ _ _ _ _ _ _ _ H)
    as (s & n & _ & -> & _ & _ & Hall & _).
  destruct (submitted_batch _ _ _ _ _ _ _ _ H')
    as (s' & n' & _ & -> & _ & _ & Hall' & _).
  split; [reflexivity|].
  destruct (all_series_unstamped s n s' n' _ _ _ _ _ Hall) as (r' & Hr' & Heq).
  congruence.
Qed.

(** The sample cycle and the same readings ten seconds later. *)
Lemma X11_same_samples_witness :
  exists series series',
    report_metrics (clock sample_cycle) None sample_parsed
      sample_project sample_zone sample_instance =
    ([CreateTimeSeries "projects/123456" series], Return tt)
    /\ report_metrics (clock later_cycle) None sample_parsed
         sample_project sample_zone sample_instance =
       ([CreateTimeSeries "projects/123456" series'], Return tt)
    /\ series <> series'
    /\ map unstamped series = map unstamped series'.
Proof.
  eexists. eexists.
  split; [vm_compute; reflexivity|]. split; [vm_compute; reflexivity|].
  split; [discriminate|].
  refine (proj2 (X11_same_samples_same_batch_up_to_the_stamp
                   (clock sample_cycle) (clock later_cycle) None None
                   sample_parsed sample_project sample_zone sample_instance
                   "projects/123456" "projects/123456" _ _ _ _));
    vm_compute; left; reflexivity.
Defined.

(** ** The trace of the loop *)

Lemma get_metrics_trace tool : fst (get_metrics tool) = [Run query_argv].
Proof.
  destruct tool as [| | |el rc out err|]; try reflexivity;
    now rewrite get_metrics_exits.
Qed.

(** The trace of a cycle that completes. *)
Lemma completing_cycle_trace p z i c :
  cycle_completes p z i c = true ->
  exists name series tl,
    forallb is_print tl = true
    /\ forall rest,
         main_loop p z i (c :: rest) =
         ([Run query_argv; CreateTimeSeries name series] ++ tl
            ++ [Sleep FREQUENCY] ++ fst (main_loop p z i rest),
          snd (main_loop p z i rest)).
Proof.
  unfold cycle_completes. pose proof (get_metrics_trace (smi_query c)) as Ht.
  destruct (get_metrics (smi_query c)) as [t [values| |]] eqn:Hg;
    try discriminate.
  cbn [fst] in Ht. subst t.
  destruct (build_series (clock c) values p z i) as [series| |] eqn:Hb;
    try discriminate.
  destruct (backend c) as [e|] eqn:Hr; intros He.
  - exists ("projects/" ++ p)%string, series,
      [Print "Encountered an error:"; Print (str_exn e)].
    split; [reflexivity|]. intros rest.
    now rewrite (main_loop_publish_caught p z i c rest _ _ _ e Hg Hb Hr He).
  - exists ("projects/" ++ p)%string, series, [].
    split; [reflexivity|]. intros rest.
    rewrite (main_loop_next_cycle p z i c rest _ _
               [CreateTimeSeries ("projects/" ++ p)%string series] Hg);
      [reflexivity|].
    rewrite Hr. now apply report_metrics_accepted.
Qed.

(** The trace of a cycle that does not: no sleep, and the rest is not run. *)
Lemma failing_cycle_trace p z i c :
  cycle_completes p z i c = false ->
  exists tl r,
    r <> Return tt
    /\ forallb is_create tl = true
    /\ (List.length tl <= 1)%nat
    /\ forall rest, main_loop p z i (c :: rest) = (Run query_argv :: tl, r).
Proof.
  unfold cycle_completes. pose proof (get_metrics_trace (smi_query c)) as Ht.
  destruct (get_metrics (smi_query c)) as [t [values|e|]] eqn:Hg;
    cbn [fst] in Ht; subst t.
  - destruct (build_series (clock c) values p z i) as [series|e|] eqn:Hb.
    + destruct (backend c) as [e|] eqn:Hr; [|discriminate]. intros He.
      exists [CreateTimeSeries ("projects/" ++ p)%string series], (Raise e).
      split; [discriminate|]. split; [reflexivity|]. split; [cbn; lia|].
      intros rest.
      rewrite (main_loop_report_raises p z i c rest _ _
                 [CreateTimeSeries ("projects/" ++ p)%string series] e Hg);
        [reflexivity|].
      rewrite Hr. now apply report_metrics_uncaught.
    + intros _. exists [], (Raise e).
      split; [discriminate|]. split; [reflexivity|]. split; [cbn; lia|].
      intros rest. now apply main_loop_build_raises with (values := values).
    + now destruct (build_series_not_blocked (clock c) values p z i).
  - intros _. exists [], (Raise e).
    split; [discriminate|]. split; [reflexivity|]. split; [cbn; lia|].
    intros rest. now apply main_loop_probe_raises.
  - intros _. exists [], Blocked.
    split; [discriminate|]. split; [reflexivity|]. split; [cbn; lia|].
    intros rest. now apply main_loop_probe_blocked.
Qed.

Lemma filter_prints_none (f : event -> bool) tl :
  (forall line, f (Print line) = false) ->
  forallb is_print tl = true -> filter f tl = [].
Proof.
  intros Hf. induction tl as [|ev tl IH]; cbn; [reflexivity|].
  intros H. apply andb_prop in H as [Hev Htl].
  destruct ev; try discriminate. rewrite Hf. now apply IH.
Qed.

(** X12: the loop sleeps [FREQUENCY] seconds after each cycle that runs to
    its end and at no other time; it probes once in every cycle it starts
    and submits at most once per probe; and it is still running after the
    cycles described exactly when all of them completed. *)
Theorem X12_one_probe_and_one_sleep_per_completed_cycle
    (p z i : string) (cs : list cycle_world) :
  filter is_sleep (fst (main_loop p z i cs))
  = repeat (Sleep FREQUENCY) (completed_cycles p z i cs)
  /\ filter is_probe (fst (main_loop p z i cs))
     = repeat (Run query_argv)
         (Nat.min (List.length cs) (S (completed_cycles p z i cs)))
  /\ (List.length (filter is_create (fst (main_loop p z i cs)))
      <= List.length (filter is_probe (fst (main_loop p z i cs))))%nat
  /\ (snd (main_loop p z i cs) = Return tt
      <-> completed_cycles p z i cs = List.length cs).
Proof.
  induction cs as [|c cs (IHs & IHp & IHc & IHr)].
  - cbn. repeat split; lia.
  - cbn [completed_cycles List.length].
    destruct (cycle_completes p z i c) eqn:Hc.
    + destruct (completing_cycle_trace p z i c Hc)
        as (name & series & tl & Htl & Hm).
      rewrite (Hm cs). cbn [fst snd].
      rewrite !filter_app.
      rewrite (filter_prints_none is_sleep tl), (filter_prints_none is_probe tl),
        (filter_prints_none is_create tl) by (assumption || reflexivity).
      cbn [filter is_sleep is_probe is_create app].
      rewrite IHs, IHp.
      split; [reflexivity|]. split.
      * destruct cs; reflexivity.
      * split; [cbn [List.length]; rewrite <- IHp; lia|].
        rewrite IHr. lia.
    + destruct (failing_cycle_trace p z i c Hc)
        as (tl & r & Hr & Htl & Hlen & Hm).
      rewrite (Hm cs). cbn [fst snd].
      assert (filter is_sleep tl = [] /\ filter is_probe tl = []
              /\ filter is_create tl = tl) as (Hs & Hp & Hcr).
      { destruct tl as [|ev [|? ?]]; cbn in Hlen; try lia; [now cbn|].
        cbn in Htl. destruct ev; try discriminate. now cbn. }
      cbn [filter is_sleep is_probe is_create].
      rewrite Hs, Hp, Hcr. cbn [repeat Nat.min]. rewrite Nat.min_0_r.
      split; [reflexivity|]. split; [reflexivity|].
      split; [cbn [List.length]; lia|].
      split; [intros H; now destruct Hr|lia].
Qed.

(** X13: cycles share no state: when a first run of cycles completes, the
    loop behaves on what follows as it would have from the start. *)
Theorem X13_completed_cycles_leave_no_trace_on_later_ones
    (p z i : string) (cs1 cs2 : list cycle_world) :
  forallb (cycle_completes p z i) cs1 = true ->
  snd (main_loop p z i cs1) = Return tt
  /\ main_loop p z i (cs1 ++ cs2) =
     (fst (main_loop p z i cs1) ++ fst (main_loop p z i cs2),
      snd (main_loop p z i cs2)).
Proof.
  induction cs1 as [|c cs1 IH]; intros H.
  - split; [reflexivity|]. cbn [app]. now destruct (main_loop p z i cs2).
  - cbn [forallb] in H. apply andb_prop in H as [Hc Hrest].
    destruct (IH Hrest) as [IHr IHm].
    destruct (completing_cycle_trace p z i c Hc)
      as (name & series & tl & Htl & Hm).
    rewrite <- app_comm_cons, (Hm cs1), (Hm (cs1 ++ cs2)), IHm.
    cbn [fst snd]. split; [exact IHr|].
    now rewrite <- !app_assoc.
Qed.

(** A refused submission, then the sample cycle, then a hanging probe. *)
Lemma X13_completed_cycles_witness :
  snd (main_loop sample_project sample_zone sample_instance
         [refused_cycle; sample_cycle]) = Return tt
  /\ main_loop sample_project sample_zone sample_instance
       ([refused_cycle; sample_cycle] ++ [cycle_probe NeverExits; sample_cycle]) =
     (fst (main_loop sample_project sample_zone sample_instance
             [refused_cycle; sample_cycle])
      ++ fst (main_loop sample_project sample_zone sample_instance
                [cycle_probe NeverExits; sample_cycle]),
      snd (main_loop sample_project sample_zone sample_instance
             [cycle_probe NeverExits; sample_cycle])).
Proof.
  apply (X13_completed_cycles_leave_no_trace_on_later_ones
           sample_project sample_zone sample_instance
           [refused_cycle; sample_cycle] [cycle_probe NeverExits; sample_cycle]).
  vm_compute. reflexivity.
Defined.

Lemma loop_events p z i cs :
  forallb loop_event (fst (main_loop p z i cs)) = true.
Proof.
  induction cs as [|c cs IH]; [reflexivity|].
  destruct (cycle_completes p z i c) eqn:Hc.
  - destruct (completing_cycle_trace p z i c Hc)
      as (name & series & tl & Htl & Hm).
    rewrite (Hm cs). cbn [fst]. rewrite !forallb_app, IH.
    assert (forallb loop_event tl = true) as ->.
    { clear -Htl. induction tl as [|ev tl IHtl]; [reflexivity|].
      cbn in *. apply andb_prop in Htl as [Hev Htl].
      destruct ev; try discriminate. now apply IHtl. }
    reflexivity.
  - destruct (failing_cycle_trace p z i c Hc)
      as (tl & r & _ & Htl & _ & Hm).
    rewrite (Hm cs). cbn [fst forallb].
    assert (forallb loop_event tl = true) as ->.
    { clear -Htl. induction tl as [|ev tl IHtl]; [reflexivity|].
      cbn in *. apply andb_prop in Htl as [Hev Htl].
      destruct ev; try discriminate. now apply IHtl. }
    reflexivity.
Qed.

Lemma forallb_not_In {A} (f : A -> bool) l x :
  forallb f l = true -> f x = false -> ~ In x l.
Proof.
  intros H Hx Hin. rewrite forallb_forall in H. apply H in Hin. congruence.
Qed.

Lemma forallb_filter_none {A} (f g : A -> bool) l :
  forallb f l = true -> (forall x, f x = true -> g x = false) ->
  filter g l = [].
Proof.
  intros H Hfg. induction l as [|a l IH]; [reflexivity|].
  cbn in *. apply andb_prop in H as [Ha Hl].
  rewrite (Hfg a Ha). now apply IH.
Qed.

Lemma check_nvidia_smi_false_trace tool t :
  check_nvidia_smi tool = (t, Return false) ->
  exists tl, t = Run list_argv :: tl /\ forallb is_print tl = true.
Proof.
  destruct tool as [| |errno msg|el rc out err|]; try discriminate.
  - intros [= <-]. now eexists.
  - destruct (Z.eq_dec rc 0) as [->|Hrc].
    + destruct (splitlines out) eqn:E.
      * rewrite (check_nvidia_smi_no_cards _ _ _ E). intros [= <-]. now eexists.
      * rewrite check_nvidia_smi_true by (cbn; now rewrite E). discriminate.
    + rewrite (check_nvidia_smi_tool_error _ _ _ _ Hrc). intros [= <-].
      eexists. split; [reflexivity|]. now destruct (out =? "")%string.
Qed.

(** X14: [main] starts with the device listing and runs it once; it asks
    the metadata server at most twice; and it probes, submits or sleeps only
    after the listing showed a card and both metadata requests were
    answered with a zone path of at least four segments. *)
Theorem X14_the_loop_starts_only_after_startup (w : world) :
  exists t',
    fst (main w) = Run list_argv :: t'
    /\ ~ In (Run list_argv) t'
    /\ (List.length (filter is_get t') <= 2)%nat
    /\ forall ev, In ev t' -> loop_event ev = true -> is_print ev = false ->
       lists_a_card (smi_list w) = true
       /\ exists ids,
            get_instance_params (metadata w) =
            ([Get zone_url METADATA_HEADERS; Get id_url METADATA_HEADERS],
             Return ids).
Proof.
  assert (forall tl, forallb is_print tl = true ->
            ~ In (Run list_argv) tl
            /\ (List.length (filter is_get tl) <= 2)%nat
            /\ forall ev, In ev tl -> loop_event ev = true ->
                          is_print ev = false -> False) as Hprints.
  { intros tl Htl. split; [now apply (forallb_not_In _ _ _ Htl)|]. split.
    - rewrite (forallb_filter_none is_print is_get tl Htl); [cbn; lia|].
      now intros [].
    - intros ev Hin _ Hp. rewrite forallb_forall in Htl.
      apply Htl in Hin. congruence. }
  destruct (check_nvidia_smi_cases (smi_list w))
    as [Hc|[[t Hf]|[Hb|(e & He & _)]]].
  2:{ rewrite (main_check_failed w t Hf). cbn [fst].
      destruct (check_nvidia_smi_false_trace _ _ Hf) as (tl & -> & Htl).
      exists tl. split; [reflexivity|].
      destruct (Hprints tl Htl) as (H1 & H2 & H3).
      split; [exact H1|]. split; [exact H2|].
      intros ev Hin Hl Hp. now destruct (H3 ev Hin Hl Hp). }
  2:{ rewrite (main_check_blocked w Hb). exists [].
      split; [reflexivity|]. split; [easy|]. split; [cbn; lia|]. easy. }
  2:{ rewrite (main_check_raises w e He). exists [].
      split; [reflexivity|]. split; [easy|]. split; [cbn; lia|]. easy. }
  - destruct (get_instance_params_cases (metadata w))
      as [(msg & Hz & Hg)|[(data & Hz & Hlen & Hg)
         |[(msg & Hid & Hg)|([[p z] i] & Hg)]]].
    + rewrite (main_connection_error w _ msg Hc Hg). eexists.
      split; [reflexivity|]. split; [cbn; intuition discriminate|].
      split; [cbn; lia|].
      intros ev Hin Hl Hp. cbn in Hin.
      destruct Hin as [<-|[<-|[<-|[]]]]; discriminate.
    + rewrite (main_identity_raises w _ IndexError Hc Hg eq_refl). eexists.
      split; [reflexivity|]. split; [cbn; intuition discriminate|].
      split; [cbn; lia|].
      intros ev Hin Hl Hp. cbn in Hin. destruct Hin as [<-|[]]; discriminate.
    + rewrite (main_connection_error w _ msg Hc Hg). eexists.
      split; [reflexivity|]. split; [cbn; intuition discriminate|].
      split; [cbn; lia|].
      intros ev Hin Hl Hp. cbn in Hin.
      destruct Hin as [<-|[<-|[<-|[<-|[]]]]]; discriminate.
    + rewrite (main_enters_loop w _ p z i Hc Hg). cbn [fst app]. eexists.
      split; [reflexivity|].
      pose proof (loop_events p z i (cycles w)) as Hloop.
      split; [|split].
      * intros [H|[H|H]]; try discriminate.
        now apply (forallb_not_In _ _ _ Hloop) in H.
      * cbn [filter is_get List.length].
        rewrite (forallb_filter_none loop_event is_get _ Hloop); [cbn; lia|].
        now intros [].
      * intros ev _ _ _. split; [exact Hc|]. now exists (p, z, i).
Qed.

(** ** Columns and keys *)

Lemma zip_floats_keeps ks : forall fields d d' k,
  ~ In k ks ->
  zip_floats ks fields d = Return d' ->
  dict_get String.eqb d' k = dict_get String.eqb d k.
Proof.
  induction ks as [|k0 ks IH]; intros fields d d' k Hk H.
  - cbn in H. now injection H as <-.
  - destruct fields as [|f fields]; [cbn in H; now injection H as <-|].
    cbn [zip_floats] in H. destruct (py_float f) as [v| |]; try discriminate.
    cbn [obind] in H. rewrite (IH _ _ _ k) with (2 := H).
    + apply (dict_get_set_other String.eqb String.eqb_eq).
      intros ->. apply Hk. now left.
    + intros Hin. apply Hk. now right.
Qed.

Lemma zip_floats_positional ks : forall fields d d',
  NoDup ks ->
  zip_floats ks fields d = Return d' ->
  forall j k f,
    nth_error ks j = Some k -> nth_error fields j = Some f ->
    exists v, py_float f = Return v /\ dict_get String.eqb d' k = Some v.
Proof.
  induction ks as [|k0 ks IH]; intros fields d d' Hnd H j k f Hk Hf.
  - now destruct j.
  - destruct fields as [|f0 fields]; [now destruct j|].
    cbn [zip_floats] in H.
    destruct (py_float f0) as [v0| |] eqn:Hv0; try discriminate.
    cbn [obind] in H. inversion Hnd as [|? ? Hnotin Hnd']; subst.
    destruct j as [|j]; cbn in Hk, Hf.
    + injection Hk as <-. injection Hf as <-. exists v0. split; [assumption|].
      rewrite (zip_floats_keeps _ _ _ _ _ Hnotin H).
      apply (dict_get_set_same String.eqb String.eqb_eq).
    + now apply (IH _ _ _ Hnd' H j k f).
Qed.

Lemma last_line_entry lines data before after line :
  lines_loop lines [] = Return data ->
  lines = before ++ line :: after ->
  (forall l, In l after -> line_key l <> line_key line) ->
  exists d,
    line_dict line = Return d
    /\ dict_get tuple_eqb data (line_key line) = Some d.
Proof.
  intros H -> Hafter. rewrite lines_loop_app in H.
  destruct (lines_loop before []) as [d1| |]; try discriminate.
  cbn [obind] in H. rewrite lines_loop_step in H.
  destruct (line_dict line) as [d| |]; try discriminate.
  cbn [obind] in H. exists d. split; [reflexivity|].
  destruct (lines_loop_keeps _ _ _ H (line_key line) d)
    as [Hsame|(l & d' & Hl & Hkey & _)].
  - apply (dict_get_set_same tuple_eqb tuple_eqb_eq).
  - exact Hsame.
  - now destruct (Hafter l Hl).
Qed.

(** X15: columns and keys correspond by position.  The query names the
    columns [requested_columns], joined by commas; and in the entry of a
    line (the last one of its key), the value stored under the name of a
    requested column is [float] of the line's field in that column. *)
Theorem X15_a_field_is_stored_under_the_name_of_its_column
    (el rc : Z) (out err : string) (t : list event) (data : MetricsData)
    (before after : list string) (line : string)
    (j : nat) (name field : string) :
  get_metrics (Exits el rc out err) = (t, Return data) ->
  splitlines out = before ++ line :: after ->
  (forall l, In l after -> line_key l <> line_key line) ->
  nth_error requested_columns (2 + j) = Some name ->
  nth_error (split "," line) (2 + j) = Some field ->
  t = [Run [NVIDIA_SMI_BIN;
            ("--query-gpu=" ++ join "," requested_columns)%string;
            "--format=csv,noheader,nounits"]]
  /\ split "," (join "," requested_columns) = requested_columns
  /\ exists d v,
       dict_get tuple_eqb data (line_key line) = Some d
       /\ py_float field = Return v
       /\ dict_get String.eqb d name = Some v.
Proof.
  rewrite get_metrics_exits. intros [= <- H] Hsplit Hafter Hname Hfield.
  split; [reflexivity|]. split; [reflexivity|].
  destruct (last_line_entry _ _ _ _ _ H Hsplit Hafter) as (d & Hd & Hget).
  unfold line_dict in Hd.
  destruct (zip_floats_positional _ _ _ _ catalog_keys_NoDup Hd j name field)
    as (v & Hv & Hdv).
  - exact Hname.
  - rewrite nth_error_skipn. exact Hfield.
  - now exists d, v.
Qed.

(** The memory total of the sample line is in the column asked for. *)
Lemma X15_a_field_is_stored_witness :
  exists d v,
    dict_get tuple_eqb sample_parsed (line_key sample_line) = Some d
    /\ py_float " 40960" = Return v
    /\ dict_get String.eqb d "memory.total" = Some v.
Proof.
  refine (proj2 (proj2 (X15_a_field_is_stored_under_the_name_of_its_column
           1 0 (sample_line ++ LF) "" [Run query_argv] sample_parsed
           [] [] sample_line 1 "memory.total" " 40960" _ _ _ _ _)));
    try (vm_compute; reflexivity).
  intros l [].
Defined.

(** ** From the output to the batch *)

(** X16: a cycle end to end.  When every output line has at least eight
    fields, the probe returns a sample set whose memory values give a
    finite percentage, the clock is finite and the backend accepts, the
    cycle submits one batch of seven series for each distinct key of the
    output, sleeps, and the loop goes on. *)
Theorem X16_a_healthy_cycle_submits_seven_series_per_card
    (p z i : string) (c : cycle_world) (rest : list cycle_world)
    (el rc : Z) (out err : string) (data : MetricsData) :
  smi_query c = Exits el rc out err ->
  (forall line, In line (splitlines out) ->
                (8 <= List.length (split "," line))%nat) ->
  get_metrics (smi_query c) = ([Run query_argv], Return data) ->
  forallb (fun entry => percent_defined (snd entry)) data = true ->
  clock_ok (clock c) = true ->
  backend c = None ->
  exists series,
    main_loop p z i (c :: rest) =
    ([Run query_argv; CreateTimeSeries ("projects/" ++ p)%string series;
      Sleep FREQUENCY] ++ fst (main_loop p z i rest),
     snd (main_loop p z i rest))
    /\ List.length series
       = (7 * List.length (first_occurrences [] (map line_key (splitlines out))))%nat.
Proof.
  intros Hq Hlen Hg Hpd Hc Hb.
  assert (forallb well_formed_entry data = true) as Hwf.
  { apply forallb_forall. intros [key d] Hin.
    rewrite forallb_forall in Hpd. specialize (Hpd _ Hin). cbn [snd] in Hpd.
    pose proof Hg as Hg'. rewrite Hq, get_metrics_exits in Hg'.
    injection Hg' as H.
    destruct (lines_loop_sound _ _ _ H key d Hin) as [[]|(line & Hl & Hk & Hd)].
    specialize (Hlen line Hl). apply line_dict_keys in Hd.
    unfold line_key in Hk.
    destruct (split "," line) as [|g [|b fields]]; cbn in Hlen; try lia.
    cbn [firstn] in Hk. cbn [skipn] in Hd.
    rewrite firstn_all2 in Hd by (rewrite catalog_keys_sorted; cbn; lia).
    subst key. unfold well_formed_entry. cbn [fst snd].
    now rewrite (complete_of_keys d Hd), Hpd. }
  destruct (build_series_returns (clock c) data p z i Hc Hwf)
    as (seconds & nanos & series & _ & _ & Hall & Hbuild).
  exists series. split.
  - rewrite (main_loop_next_cycle p z i c rest _ _
               [CreateTimeSeries ("projects/" ++ p)%string series] Hg);
      [reflexivity|].
    rewrite Hb. now apply report_metrics_accepted.
  - destruct (all_series_shape _ _ _ _ _ _ _ Hall) as [Hmap _].
    rewrite <- (length_map (fun ts => (metric_labels ts, metric_type ts))), Hmap.
    rewrite published_pairs_length. f_equal.
    rewrite Hq, get_metrics_exits in Hg. injection Hg as H.
    rewrite <- (length_map fst). change (map fst data) with (keys data).
    now rewrite (lines_loop_keys _ _ _ H).
Qed.

(** The sample cycle. *)
Lemma X16_a_healthy_cycle_witness :
  exists series,
    main_loop sample_project sample_zone sample_instance
      [sample_cycle; later_cycle] =
    ([Run query_argv;
      CreateTimeSeries ("projects/" ++ sample_project)%string series;
      Sleep FREQUENCY]
     ++ fst (main_loop sample_project sample_zone sample_instance [later_cycle]),
     snd (main_loop sample_project sample_zone sample_instance [later_cycle]))
    /\ List.length series = 7%nat.
Proof.
  apply (X16_a_healthy_cycle_submits_seven_series_per_card
           sample_project sample_zone sample_instance
           sample_cycle [later_cycle] 1 0 (sample_line ++ LF) "" sample_parsed);
    try (vm_compute; reflexivity).
  intros line [<-|[]]. vm_compute. lia.
Defined.

(** ** How the process ends *)

Lemma main_loop_starts_with_probe p z i c rest :
  exists tl r, main_loop p z i (c :: rest) = (Run query_argv :: tl, r).
Proof.
  destruct (cycle_completes p z i c) eqn:Hc.
  - destruct (completing_cycle_trace p z i c Hc) as (name & series & tl & _ & Hm).
    rewrite (Hm rest). eexists. eexists. reflexivity.
  - destruct (failing_cycle_trace p z i c Hc) as (tl & r & _ & _ & _ & Hm).
    rewrite (Hm rest). eexists. eexists. reflexivity.
Qed.

(** The ways [get_instance_params] ends, by what the server does. *)
Lemma get_instance_params_by_server server :
  (exists msg, server zone_url = Unreachable msg /\
     get_instance_params server =
     ([Get zone_url METADATA_HEADERS], Raise (ConnectionError msg)))
  \/ (exists data, server zone_url = Responds data /\
        (List.length (split "/" data) < 4)%nat /\
        get_instance_params server =
        ([Get zone_url METADATA_HEADERS], Raise IndexError))
  \/ (exists data msg, server zone_url = Responds data /\
        (4 <= List.length (split "/" data))%nat /\
        server id_url = Unreachable msg /\
        get_instance_params server =
        ([Get zone_url METADATA_HEADERS; Get id_url METADATA_HEADERS],
         Raise (ConnectionError msg)))
  \/ (exists data ids, server zone_url = Responds data /\
        (4 <= List.length (split "/" data))%nat /\
        get_instance_params server =
        ([Get zone_url METADATA_HEADERS; Get id_url METADATA_HEADERS],
         Return ids)).
Proof.
  destruct (server zone_url) as [msg|data] eqn:Hz.
  - left. exists msg. split; [reflexivity|].
    now apply get_instance_params_zone_unreachable.
  - right.
    destruct (nth_error (split "/" data) 3) as [zone|] eqn:E3.
    + assert (4 <= List.length (split "/" data))%nat as Hlen.
      { assert (nth_error (split "/" data) 3 <> None) as N by congruence.
        apply nth_error_Some in N. lia. }
      assert (exists project_id, nth_error (split "/" data) 1 = Some project_id)
        as [project_id E1].
      { destruct (nth_error (split "/" data) 1) eqn:E1; [eauto|].
        apply nth_error_None in E1. lia. }
      right. destruct (server id_url) as [msg|instance_id] eqn:Hid.
      * left. exists data, msg. repeat (split; [first [reflexivity|assumption]|]).
        eapply get_instance_params_id_unreachable; eauto.
      * right. exists data, (project_id, zone, instance_id).
        repeat (split; [first [reflexivity|assumption]|]).
        eapply get_instance_params_ok; eauto.
    + left. exists data. apply nth_error_None in E3.
      split; [reflexivity|]. split; [lia|].
      apply get_instance_params_short_path with (data := data); [assumption|lia].
Qed.

(** C10, as the code has it.  [sys.exit(2)] is reached before the loop
    exactly when the listing showed a card and a metadata request met an
    unreachable server.  A zone answer of fewer than four segments makes
    [data.split("/")[3]] raise [IndexError], which the handler of
    [ConnectionError] does not catch: [main] ends with that exception after
    the first request, neither [sys.exit] call is executed, and the
    interpreter ends the process with exit status 1, the status that
    [sys.exit(1)] gives for the failures of the tool. *)
Theorem C10_short_zone_path_raises_index_error :
  (forall w data,
      lists_a_card (smi_list w) = true ->
      metadata w zone_url = Responds data ->
      (List.length (split "/" data) < 4)%nat ->
      main w = ([Run list_argv; Get zone_url METADATA_HEADERS], Raise IndexError)
      /\ script w =
         ([Run list_argv; Get zone_url METADATA_HEADERS], ExitStatus 1))
  /\ (forall w,
        (exists t, main w = (t, Raise (SystemExit 2))
                   /\ ~ In (Run query_argv) t)
        <-> lists_a_card (smi_list w) = true
            /\ ((exists msg, metadata w zone_url = Unreachable msg)
                \/ (exists data msg,
                      metadata w zone_url = Responds data
                      /\ (4 <= List.length (split "/" data))%nat
                      /\ metadata w id_url = Unreachable msg)))
  /\ script world_short_zone =
     ([Run list_argv; Get zone_url METADATA_HEADERS], ExitStatus 1)
  /\ snd (script world_no_metadata) = ExitStatus 2.
Proof.
  assert (forall w data,
      lists_a_card (smi_list w) = true ->
      metadata w zone_url = Responds data ->
      (List.length (split "/" data) < 4)%nat ->
      main w = ([Run list_argv; Get zone_url METADATA_HEADERS], Raise IndexError))
    as Hshort.
  { intros w data Hc Hz Hlen.
    rewrite (main_identity_raises w [Get zone_url METADATA_HEADERS] IndexError Hc);
      [reflexivity | | reflexivity].
    now apply get_instance_params_short_path with (data := data). }
  split; [|split; [|split]].
  - intros w data Hc Hz Hlen. split; [now apply Hshort with (data := data)|].
    unfold script. now rewrite (Hshort w data Hc Hz Hlen).
  - intros w. split.
    + intros (t & Hmain & Hnot).
      destruct (check_nvidia_smi_cases (smi_list w))
        as [Hc|[[t' Hf]|[Hb|(e & He & [->|(errno & msg & ->)])]]].
      * split; [exact Hc|].
        destruct (get_instance_params_by_server (metadata w))
          as [(msg & Hz & _)|[(data & Hz & Hlen & Hg)
             |[(data & msg & Hz & Hlen & Hid & _)|(data & [[p z] i] & _ & _ & Hg)]]].
        -- left. now exists msg.
        -- rewrite (main_identity_raises w _ IndexError Hc Hg eq_refl) in Hmain.
           discriminate.
        -- right. now exists data, msg.
        -- rewrite (main_enters_loop w _ p z i Hc Hg) in Hmain.
           destruct (cycles w) as [|c rest]; [discriminate|].
           destruct (main_loop_starts_with_probe p z i c rest) as (tl & r & Hl).
           rewrite Hl in Hmain. cbn [fst snd app] in Hmain.
           injection Hmain as <- _. destruct Hnot.
           right. right. right. now left.
      * rewrite (main_check_failed w t' Hf) in Hmain. discriminate.
      * rewrite (main_check_blocked w Hb) in Hmain. discriminate.
      * rewrite (main_check_raises w _ He) in Hmain. discriminate.
      * rewrite (main_check_raises w _ He) in Hmain. discriminate.
    + intros [Hc [(msg & Hz)|(data & msg & Hz & Hlen & Hid)]].
      * eexists. split.
        -- apply (main_connection_error w [Get zone_url METADATA_HEADERS] msg Hc).
           now apply get_instance_params_zone_unreachable.
        -- cbn. intuition discriminate.
      * destruct (get_instance_params_by_server (metadata w))
          as [(msg' & Hz' & _)|[(data' & Hz' & Hlen' & _)
             |[(data' & msg' & _ & _ & Hid' & Hg)|(data' & ids & _ & _ & Hg)]]].
        -- congruence.
        -- assert (data' = data) as -> by congruence. lia.
        -- eexists. split.
           ++ apply (main_connection_error w _ msg' Hc Hg).
           ++ cbn. intuition discriminate.
        -- exfalso.
           assert (nth_error (split "/" data) 3 <> None) as N3
             by (apply nth_error_Some; lia).
           assert (nth_error (split "/" data) 1 <> None) as N1
             by (apply nth_error_Some; lia).
           destruct (nth_error (split "/" data) 3) as [zone|] eqn:E3;
             [|congruence].
           destruct (nth_error (split "/" data) 1) as [project_id|] eqn:E1;
             [|congruence].
           rewrite (get_instance_params_id_unreachable _ _ _ _ _ Hz E3 E1 Hid)
             in Hg.
           discriminate.
  - vm_compute. reflexivity.
  - vm_compute. reflexivity.
Qed.

(** C10 as stated fails in its conclusion: with a zone answer of two
    segments the process ends with exit status 1, the very status with
    which it ends when the tool is missing ([sys.exit(1)]). *)
Lemma C10_counterexample :
  snd (script world_short_zone) = ExitStatus 1
  /\ snd (main world_tool_missing) = Raise (SystemExit 1)
  /\ snd (script world_tool_missing) = ExitStatus 1.
Proof. split; [|split]; vm_compute; reflexivity. Qed.
